(** * Resource attachment for a running utility VM: shares, NICs and the
      collaborators around them.

    A shallow embedding of four Go files:
    - [internal/uvm/share.go]        (module [UvmShare]),
    - [internal/uvm/computeagent.go] (module [ComputeAgent]),
    - the wclayer descriptor helper   (module [Wclayer]),
    - the hcsv2 workload spec set-up  (module [Hcsv2]).

    Calls that leave the function under study (the HCS, the HNS, the guest,
    the file system) are recorded in a history of events; what such a call
    answers is decided by an oracle that may look at the whole history. *)

From Stdlib Require Import String Ascii List Bool Arith ZArith Lia.
Import ListNotations.
Local Open Scope string_scope.
Local Open Scope list_scope.

(* ================================================================== *)
(** * The pieces of Go the four files rely on *)
(* ================================================================== *)

Module Go.

(** ** Error values

    A non-nil [error] is either a leaf carrying its message, or a wrapper
    made by [errors.Wrapf]: a new value that remembers its cause. The nil
    interface value is [None]. *)

Inductive err : Type :=
| errorString (msg : string)
| withMessage (cause : err) (msg : string).

Definition error : Type := option err.

(** [e.Error()]: a wrapper prints its own message, a colon, then the cause. *)
Fixpoint Error (e : err) : string :=
  match e with
  | errorString msg => msg
  | withMessage cause msg => msg ++ ": " ++ Error cause
  end.

(** A call returning [(T, error)]: by convention exactly one side is set. *)
Inductive result (A : Type) : Type :=
| Ok (a : A)
| Err (e : err).
Arguments Ok {A} a.
Arguments Err {A} e.

(** A call either returns or panics (a nil pointer dereference). *)
Inductive outcome (A : Type) : Type :=
| Returned (a : A)
| Panicked.
Arguments Returned {A} a.
Arguments Panicked {A}.

(** [errors.Wrapf(err, format, args...)] and the two leaf constructors, over
    the formatting function. [Wrapf] of a nil error is nil. *)
Section Formatting.
Variable fmt_Sprintf : string -> list string -> string.

Definition errors_Wrapf (e : error) (format : string) (args : list string)
  : error :=
  match e with
  | None => None
  | Some cause => Some (withMessage cause (fmt_Sprintf format args))
  end.

Definition errors_Errorf (format : string) (args : list string) : err :=
  errorString (fmt_Sprintf format args).

Definition fmt_Errorf (format : string) (args : list string) : err :=
  errorString (fmt_Sprintf format args).
End Formatting.

(** ** package strings (strings are byte sequences) *)

Fixpoint HasPrefix (s prefix : string) {struct prefix} : bool :=
  match prefix with
  | EmptyString => true
  | String c prefix' =>
      match s with
      | EmptyString => false
      | String d s' => Ascii.eqb c d && HasPrefix s' prefix'
      end
  end.

Fixpoint dropBytes (n : nat) (s : string) : string :=
  match n with
  | O => s
  | S n' => match s with
            | EmptyString => EmptyString
            | String _ s' => dropBytes n' s'
            end
  end.

Definition TrimPrefix (s prefix : string) : string :=
  if HasPrefix s prefix then dropBytes (String.length prefix) s else s.

Fixpoint Contains (s substr : string) : bool :=
  match s with
  | EmptyString => HasPrefix EmptyString substr
  | String _ s' => HasPrefix s substr || Contains s' substr
  end.

Fixpoint strings_Join (elems : list string) (sep : string) : string :=
  match elems with
  | [] => EmptyString
  | [e] => e
  | e :: rest => e ++ sep ++ strings_Join rest sep
  end.

(** ** package path/filepath on Linux (separator [/], no volume names)

    [Clean] works element by element: empty elements and [.] vanish, [..]
    removes the element before it when there is one, is dropped at the root
    and is kept at the start of a relative path. *)

Definition slash : ascii := "/"%char.

Fixpoint splitElems (s : string) : list string :=
  match s with
  | EmptyString => [EmptyString]
  | String c s' =>
      if Ascii.eqb c slash then EmptyString :: splitElems s'
      else match splitElems s' with
           | [] => [String c EmptyString]
           | x :: xs => String c x :: xs
           end
  end.

(** [out] holds the elements written so far, last one first. *)
Fixpoint cleanElems (rooted : bool) (out : list string) (elems : list string)
  : list string :=
  match elems with
  | [] => rev out
  | e :: rest =>
      if String.eqb e "" then cleanElems rooted out rest
      else if String.eqb e "." then cleanElems rooted out rest
      else if String.eqb e ".." then
        match out with
        | top :: out' =>
            if String.eqb top ".."
            then cleanElems rooted (e :: out) rest
            else cleanElems rooted out' rest
        | [] =>
            if rooted then cleanElems rooted out rest
            else cleanElems rooted (e :: out) rest
        end
      else cleanElems rooted (e :: out) rest
  end.

Definition filepath_Clean (path : string) : string :=
  match path with
  | EmptyString => "."
  | String c _ =>
      let rooted := Ascii.eqb c slash in
      let body := strings_Join (cleanElems rooted [] (splitElems path)) "/" in
      if rooted then String slash body
      else if String.eqb body "" then "." else body
  end.

(** [filepath.Join]: leading empty elements are skipped, the rest is joined
    with the separator and cleaned; all empty gives the empty string. *)
Fixpoint filepath_Join (elem : list string) : string :=
  match elem with
  | [] => ""
  | e :: rest =>
      if String.eqb e "" then filepath_Join rest
      else filepath_Clean (strings_Join elem "/")
  end.

(** ** Histories

    A computation reads and extends a state; here the state is the list of
    events so far, oldest first. *)

Definition M (S A : Type) : Type := S -> A * S.

Definition ret {S A : Type} (a : A) : M S A := fun s => (a, s).

Definition bind {S A B : Type} (m : M S A) (k : A -> M S B) : M S B :=
  fun s => let (a, s') := m s in k a s'.

(** One call to a collaborator: ask the oracle, given the history so far, and
    record the call with its answer. *)
Definition call {Ev A : Type} (oracle : list Ev -> A) (event : A -> Ev)
  : M (list Ev) A :=
  fun h => let a := oracle h in (a, h ++ [event a]).

(** An event with nothing to answer (a log line). *)
Definition emit {Ev : Type} (event : Ev) : M (list Ev) unit :=
  fun h => (tt, h ++ [event]).

End Go.

Notation "x <- m ;; k" := (Go.bind m (fun x => k))
  (at level 61, m at next level, right associativity).
Notation "m ;;; k" := (Go.bind m (fun _ => k))
  (at level 61, right associativity).


(* ================================================================== *)
(** * internal/uvm/share.go *)
(* ================================================================== *)

Module UvmShare.
Import Go.

(** The utility VM, as far as [Share] reads it: its OS family. *)
Record UtilityVM : Type := { operatingSystem : string }.

Definition OS (uvm : UtilityVM) : string := operatingSystem uvm.

(** Modelled from the spec: the constants of packages guestrequest and
    requesttype are not among the sources; the message sent to the guest has
    a resource type (MappedDirectory among others) and an operation (Add or
    Remove). *)
Inductive guestrequest_ResourceType : Type :=
| ResourceTypeMappedDirectory
| ResourceTypeOther (name : string).

Inductive requesttype_RequestType : Type :=
| requesttype_Add
| requesttype_Remove.

(** [hcsschema.MappedDirectory] and [guestrequest.GuestRequest]. *)
Record MappedDirectory : Type := {
  HostPath : string;
  ContainerPath : string;
  ReadOnly : bool
}.

Record GuestRequest : Type := {
  ResourceType : guestrequest_ResourceType;
  RequestType : requesttype_RequestType;
  Settings : MappedDirectory
}.

(** The request [Share] builds for the guest on a Windows VM (lines 33-41). *)
Definition mappedDirectoryAdd (sharePath guestPath : string) (readOnly : bool)
  : GuestRequest :=
  {| ResourceType := ResourceTypeMappedDirectory;
     RequestType := requesttype_Add;
     Settings := {| HostPath := sharePath; ContainerPath := guestPath;
                    ReadOnly := readOnly |} |}.

Section Model.
(** Types declared elsewhere in the repository or in the Go library: the
    VSMB share options, the two share handles, and [os.FileInfo]. *)
Variables VSMBOptions VSMBShare Plan9Share FileInfo : Type.

(** Every call [Share] makes outside itself, with what it answered. *)
Inductive Event : Type :=
| EvAddVSMB (hostPath : string) (options : VSMBOptions)
            (res : result VSMBShare)
| EvVSMBRelease (share : VSMBShare) (res : error)
| EvGetVSMBUvmPath (hostPath : string) (readOnly : bool)
                   (res : result string)
| EvGuestRequest (req : GuestRequest) (res : error)
| EvStat (path : string) (res : result FileInfo)
| EvAddPlan9 (hostPath uvmPath : string) (readOnly restrictAccess : bool)
             (allowedNames : list string) (res : result Plan9Share)
| EvPlan9Release (share : Plan9Share) (res : error).

(** What [Share] takes from its surroundings: library functions, the
    default options, and one oracle per call. *)
Record Host : Type := {
  fmt_Sprintf : string -> list string -> string;
  filepath_Split : string -> string * string;
  IsDir : FileInfo -> bool;
  DefaultVSMBOptions : UtilityVM -> bool -> VSMBOptions;
  answer_AddVSMB :
    UtilityVM -> string -> VSMBOptions -> list Event -> result VSMBShare;
  answer_VSMBRelease : VSMBShare -> list Event -> error;
  answer_GetVSMBUvmPath :
    UtilityVM -> string -> bool -> list Event -> result string;
  answer_GuestRequest : UtilityVM -> GuestRequest -> list Event -> error;
  answer_Stat : string -> list Event -> result FileInfo;
  answer_AddPlan9 :
    UtilityVM -> string -> string -> bool -> bool -> list string ->
    list Event -> result Plan9Share;
  answer_Plan9Release : Plan9Share -> list Event -> error
}.

Variable host : Host.

Definition AddVSMB (uvm : UtilityVM) (hostPath : string)
    (options : VSMBOptions) : M (list Event) (result VSMBShare) :=
  call (answer_AddVSMB host uvm hostPath options)
       (EvAddVSMB hostPath options).

Definition VSMBRelease (share : VSMBShare) : M (list Event) error :=
  call (answer_VSMBRelease host share) (EvVSMBRelease share).

Definition GetVSMBUvmPath (uvm : UtilityVM) (hostPath : string)
    (readOnly : bool) : M (list Event) (result string) :=
  call (answer_GetVSMBUvmPath host uvm hostPath readOnly)
       (EvGetVSMBUvmPath hostPath readOnly).

Definition GuestRequest_ (uvm : UtilityVM) (req : GuestRequest)
  : M (list Event) error :=
  call (answer_GuestRequest host uvm req) (EvGuestRequest req).

Definition os_Stat (path : string) : M (list Event) (result FileInfo) :=
  call (answer_Stat host path) (EvStat path).

Definition AddPlan9 (uvm : UtilityVM) (hostPath uvmPath : string)
    (readOnly restrictAccess : bool) (allowedNames : list string)
  : M (list Event) (result Plan9Share) :=
  call (answer_AddPlan9 host uvm hostPath uvmPath readOnly restrictAccess
                        allowedNames)
       (EvAddPlan9 hostPath uvmPath readOnly restrictAccess allowedNames).

Definition Plan9Release (share : Plan9Share) : M (list Event) error :=
  call (answer_Plan9Release host share) (EvPlan9Release share).

(** The variables called [err] in [Share]. Go scopes them by block:
    - [result_err] is the named result of line 16;
    - [block_err] is the one declared by [:=] as the first statement of
      each branch (line 19, line 46): inside the branch it shadows the
      named result, later [:=] of the same block assign it (lines 29, 61),
      and the deferred closures, written inside the branch, read it;
    - the [err] of line 42 belongs to its [if] statement alone and is no
      field here. *)
Record Vars : Type := { result_err : error; block_err : error }.

Definition Deferred : Type := Vars -> M (list Event) unit.

Fixpoint runDeferred (ds : list Deferred) (vars : Vars)
  : M (list Event) unit :=
  match ds with
  | [] => ret tt
  | d :: ds' => d vars ;;; runDeferred ds' vars
  end.

(** [return e]: the named result takes the value, then the deferred calls
    run, the last registered first ([ds] lists them in that order). *)
Definition return_ (ds : list Deferred) (vars : Vars) (e : error)
  : M (list Event) error :=
  let vars' := {| result_err := e; block_err := block_err vars |} in
  runDeferred ds vars' ;;; ret (result_err vars').

(** Lines 23-27. *)
Definition deferVSMBRelease (vsmbShare : VSMBShare) : Deferred :=
  fun vars =>
    match block_err vars with
    | Some _ => VSMBRelease vsmbShare ;;; ret tt
    | None => ret tt
    end.

(** Lines 65-69. *)
Definition deferPlan9Release (plan9Share : Plan9Share) : Deferred :=
  fun vars =>
    match block_err vars with
    | Some _ => Plan9Release plan9Share ;;; ret tt
    | None => ret tt
    end.

Definition Share (uvm : UtilityVM) (reqHostPath reqUVMPath : string)
    (readOnly : bool) : M (list Event) error :=
  if String.eqb (OS uvm) "windows" then
    let options := DefaultVSMBOptions host uvm readOnly in
    r <- AddVSMB uvm reqHostPath options ;;
    match r with
    | Err e =>
        return_ [] {| result_err := None; block_err := Some e |} (Some e)
    | Ok vsmbShare =>
        let ds := [deferVSMBRelease vsmbShare] in
        r2 <- GetVSMBUvmPath uvm reqHostPath readOnly ;;
        match r2 with
        | Err e =>
            return_ ds {| result_err := None; block_err := Some e |}
                    (Some e)
        | Ok sharePath =>
            let guestReq :=
              {| ResourceType := ResourceTypeMappedDirectory;
                 RequestType := requesttype_Add;
                 Settings := {| HostPath := sharePath;
                                ContainerPath := reqUVMPath;
                                ReadOnly := readOnly |} |} in
            e3 <- GuestRequest_ uvm guestReq ;;
            match e3 with
            | Some e =>
                (* line 42: this err is a third variable *)
                return_ ds {| result_err := None; block_err := None |}
                        (Some e)
            | None =>
                return_ ds {| result_err := None; block_err := None |}
                        None
            end
        end
    end
  else
    r <- os_Stat reqHostPath ;;
    match r with
    | Err e =>
        return_ [] {| result_err := None; block_err := Some e |}
          (Some (fmt_Errorf (fmt_Sprintf host)
                   "could not open '%s' path on host: %s"
                   [reqHostPath; Error e]))
    | Ok st =>
        let '(hostPath, restrictAccess, allowedNames) :=
          if negb (IsDir host st) then
            let (dir, fileName) := filepath_Split host reqHostPath in
            (dir, true, [] ++ [fileName])
          else (reqHostPath, false, []) in
        r2 <- AddPlan9 uvm hostPath reqUVMPath readOnly restrictAccess
                       allowedNames ;;
        match r2 with
        | Err e =>
            return_ [] {| result_err := None; block_err := Some e |}
                    (Some e)
        | Ok plan9Share =>
            return_ [deferPlan9Release plan9Share]
                    {| result_err := None; block_err := None |} None
        end
    end.

(** Readings of a history. *)
Definition guestRequests (h : list Event) : list GuestRequest :=
  flat_map (fun ev => match ev with
                      | EvGuestRequest req _ => [req]
                      | _ => []
                      end) h.

Definition vsmbAllocations (h : list Event)
  : list (string * VSMBOptions) :=
  flat_map (fun ev => match ev with
                      | EvAddVSMB p o _ => [(p, o)]
                      | _ => []
                      end) h.

Definition plan9Allocations (h : list Event)
  : list (string * string * bool * bool * list string) :=
  flat_map (fun ev => match ev with
                      | EvAddPlan9 p g ro ra names _ =>
                          [(p, g, ro, ra, names)]
                      | _ => []
                      end) h.

(** [share] has been handed to [Release] somewhere in [h]. *)
Definition vsmbReleased (share : VSMBShare) (h : list Event) : Prop :=
  exists res, In (EvVSMBRelease share res) h.

(** The shares handed to [Release] in a history, in order. *)
Definition vsmbReleases (h : list Event) : list VSMBShare :=
  flat_map (fun ev => match ev with
                      | EvVSMBRelease share _ => [share]
                      | _ => []
                      end) h.

Definition plan9Releases (h : list Event) : list Plan9Share :=
  flat_map (fun ev => match ev with
                      | EvPlan9Release share _ => [share]
                      | _ => []
                      end) h.

End Model.

Arguments vsmbReleases {VSMBOptions VSMBShare Plan9Share FileInfo}.
Arguments plan9Releases {VSMBOptions VSMBShare Plan9Share FileInfo}.

Arguments EvAddVSMB {VSMBOptions VSMBShare Plan9Share FileInfo}.
Arguments EvVSMBRelease {VSMBOptions VSMBShare Plan9Share FileInfo}.
Arguments EvGetVSMBUvmPath {VSMBOptions VSMBShare Plan9Share FileInfo}.
Arguments EvGuestRequest {VSMBOptions VSMBShare Plan9Share FileInfo}.
Arguments EvStat {VSMBOptions VSMBShare Plan9Share FileInfo}.
Arguments EvAddPlan9 {VSMBOptions VSMBShare Plan9Share FileInfo}.
Arguments EvPlan9Release {VSMBOptions VSMBShare Plan9Share FileInfo}.
Arguments Share {VSMBOptions VSMBShare Plan9Share FileInfo}.
Arguments guestRequests {VSMBOptions VSMBShare Plan9Share FileInfo}.
Arguments vsmbAllocations {VSMBOptions VSMBShare Plan9Share FileInfo}.
Arguments plan9Allocations {VSMBOptions VSMBShare Plan9Share FileInfo}.
Arguments vsmbReleased {VSMBOptions VSMBShare Plan9Share FileInfo}.
Arguments DefaultVSMBOptions {VSMBOptions VSMBShare Plan9Share FileInfo}.
Arguments filepath_Split {VSMBOptions VSMBShare Plan9Share FileInfo}.
Arguments fmt_Sprintf {VSMBOptions VSMBShare Plan9Share FileInfo}.
Arguments IsDir {VSMBOptions VSMBShare Plan9Share FileInfo}.
Arguments answer_AddVSMB {VSMBOptions VSMBShare Plan9Share FileInfo}.
Arguments answer_VSMBRelease {VSMBOptions VSMBShare Plan9Share FileInfo}.
Arguments answer_GetVSMBUvmPath {VSMBOptions VSMBShare Plan9Share FileInfo}.
Arguments answer_GuestRequest {VSMBOptions VSMBShare Plan9Share FileInfo}.
Arguments answer_Stat {VSMBOptions VSMBShare Plan9Share FileInfo}.
Arguments answer_AddPlan9 {VSMBOptions VSMBShare Plan9Share FileInfo}.
Arguments answer_Plan9Release {VSMBOptions VSMBShare Plan9Share FileInfo}.

End UvmShare.

(* ================================================================== *)
(** * internal/uvm/computeagent.go *)
(* ================================================================== *)

Module ComputeAgent.
Import Go.

Definition UtilityVM : Type := UvmShare.UtilityVM.

(** [computeAgent]: the service holds the VM it serves. *)
Record computeAgent : Type := { uvm : UtilityVM }.

(** The ttrpc messages: three strings in, nothing out. *)
Record AddNICInternalRequest : Type := {
  add_ContainerID : string;
  add_NicID : string;
  add_EndpointName : string
}.

Record DeleteNICInternalRequest : Type := {
  del_ContainerID : string;
  del_NicID : string;
  del_EndpointName : string
}.

Inductive AddNICInternalResponse : Type := mkAddNICInternalResponse.
Inductive DeleteNICInternalResponse : Type := mkDeleteNICInternalResponse.

(** [hns.Namespace]: the endpoint's namespace, known by its ID. *)
Record Namespace : Type := { ID : string }.

Inductive logLevel : Type := Info | Fatal.

(** How a serving task ends: its loop stopped cleanly, or the process that
    hosts it exits ([logrus]'s Fatal logs and then exits). *)
Inductive TaskEnd : Type :=
| CleanShutdown
| ProcessExit (e : err).

Section Model.
(** [hns.HNSEndpoint], the pipe listener and the ttrpc server are declared
    outside the file. *)
Variables HNSEndpoint Listener Server : Type.

Inductive Event : Type :=
| EvLog (level : logLevel) (fields : list (string * string)) (msg : string)
| EvGetHNSEndpointByName (name : string) (res : result HNSEndpoint)
| EvAddEndpointToNSWithID (vm : UtilityVM) (nsID nicID : string)
                          (endpoint : HNSEndpoint) (res : error)
| EvRemoveEndpointFromNS (vm : UtilityVM) (nsID : string)
                         (endpoint : HNSEndpoint) (res : error)
| EvListenPipe (addr : string) (res : result Listener)
| EvNewServer (res : result Server)
| EvRegisterComputeAgentService (s : Server) (ca : computeAgent)
| EvGo (s : Server) (l : Listener)
| EvServe (s : Server) (l : Listener) (res : error)
| EvClose (l : Listener).

Definition isLog (ev : Event) : bool :=
  match ev with
  | EvLog _ _ _ => true
  | _ => false
  end.

(** The calls of a history: the HNS, the VM and the transport do not read
    the agent's log, so their oracles see the history without it. *)
Definition calls (h : list Event) : list Event :=
  filter (fun ev => negb (isLog ev)) h.

Record Host : Type := {
  fmt_Sprintf : string -> list string -> string;
  (** [endpoint.Namespace] is a pointer: [None] is nil. *)
  endpoint_Namespace : HNSEndpoint -> option Namespace;
  listener_Addr : Listener -> string;
  answer_GetHNSEndpointByName : string -> list Event -> result HNSEndpoint;
  answer_AddEndpointToNSWithID :
    UtilityVM -> string -> string -> HNSEndpoint -> list Event -> error;
  answer_RemoveEndpointFromNS :
    UtilityVM -> string -> HNSEndpoint -> list Event -> error;
  answer_ListenPipe : string -> list Event -> result Listener;
  answer_NewServer : list Event -> result Server;
  answer_Serve : Server -> Listener -> list Event -> error
}.

Variable host : Host.

Definition callOut {A : Type} (oracle : list Event -> A) (event : A -> Event)
  : M (list Event) A :=
  call (fun h => oracle (calls h)) event.

Definition log_Info (fields : list (string * string)) (msg : string)
  : M (list Event) unit :=
  emit (EvLog Info fields msg).

Definition hns_GetHNSEndpointByName (name : string)
  : M (list Event) (result HNSEndpoint) :=
  callOut (answer_GetHNSEndpointByName host name)
          (EvGetHNSEndpointByName name).

Definition AddEndpointToNSWithID (vm : UtilityVM) (nsID nicID : string)
    (endpoint : HNSEndpoint) : M (list Event) error :=
  callOut (answer_AddEndpointToNSWithID host vm nsID nicID endpoint)
          (EvAddEndpointToNSWithID vm nsID nicID endpoint).

Definition RemoveEndpointFromNS (vm : UtilityVM) (nsID : string)
    (endpoint : HNSEndpoint) : M (list Event) error :=
  callOut (answer_RemoveEndpointFromNS host vm nsID endpoint)
          (EvRemoveEndpointFromNS vm nsID endpoint).

(** [AddNIC] returns [(response, error)]; a nil response is [None]. *)
Definition AddNIC (ca : computeAgent) (req : AddNICInternalRequest)
  : M (list Event) (outcome (option AddNICInternalResponse * error)) :=
  log_Info [("containerID", add_ContainerID req);
            ("endpointID", add_EndpointName req);
            ("nicID", add_NicID req)] "AddNIC request" ;;;
  r <- hns_GetHNSEndpointByName (add_EndpointName req) ;;
  match r with
  | Err e =>
      ret (Returned
             (None,
              errors_Wrapf (fmt_Sprintf host) (Some e)
                "failed to get endpoint with name %q"
                [add_EndpointName req]))
  | Ok endpoint =>
      match endpoint_Namespace host endpoint with
      | None => ret Panicked
      | Some ns =>
          e2 <- AddEndpointToNSWithID (uvm ca) (ID ns) (add_NicID req)
                                      endpoint ;;
          match e2 with
          | Some e => ret (Returned (None, Some e))
          | None => ret (Returned (Some mkAddNICInternalResponse, None))
          end
      end
  end.

Definition DeleteNIC (ca : computeAgent) (req : DeleteNICInternalRequest)
  : M (list Event) (outcome (option DeleteNICInternalResponse * error)) :=
  log_Info [("containerID", del_ContainerID req);
            ("nicID", del_NicID req);
            ("endpointName", del_EndpointName req)] "DeleteNIC request" ;;;
  r <- hns_GetHNSEndpointByName (del_EndpointName req) ;;
  match r with
  | Err e =>
      ret (Returned
             (None,
              errors_Wrapf (fmt_Sprintf host) (Some e)
                "failed to get endpoint with name %q"
                [del_EndpointName req]))
  | Ok endpoint =>
      match endpoint_Namespace host endpoint with
      | None => ret Panicked
      | Some ns =>
          e2 <- RemoveEndpointFromNS (uvm ca) (ID ns) endpoint ;;
          match e2 with
          | Some e => ret (Returned (None, Some e))
          | None => ret (Returned (Some mkDeleteNICInternalResponse, None))
          end
      end
  end.

Definition trapClosedConnErr (e : error) : error :=
  match e with
  | None => None
  | Some e' =>
      if Contains (Error e') "use of closed network connection"
      then None
      else e
  end.

(** The body of the goroutine of lines 81-86. Fatal ends the process, so
    the deferred [l.Close()] runs only when the loop stopped cleanly. *)
Definition serveTask (s : Server) (l : Listener) : M (list Event) TaskEnd :=
  r <- callOut (answer_Serve host s l) (EvServe s l) ;;
  match trapClosedConnErr r with
  | Some e =>
      emit (EvLog Fatal [("error", Error e)]
                  "compute agent: serve failure") ;;;
      ret (ProcessExit e)
  | None =>
      emit (EvClose l) ;;; ret CleanShutdown
  end.

(** [setupAndServe] starts the task and returns; [EvGo] records the start,
    the task itself is [serveTask]. *)
Definition setupAndServe (caAddr : string) (vm : UtilityVM)
  : M (list Event) error :=
  r <- callOut (answer_ListenPipe host caAddr) (EvListenPipe caAddr) ;;
  match r with
  | Err e =>
      ret (errors_Wrapf (fmt_Sprintf host) (Some e)
             "failed to listen on %s" [caAddr])
  | Ok l =>
      r2 <- callOut (answer_NewServer host) EvNewServer ;;
      match r2 with
      | Err e => ret (Some e)
      | Ok s =>
          emit (EvRegisterComputeAgentService s {| uvm := vm |}) ;;;
          log_Info [("address", listener_Addr host l)]
                   "serving compute agent" ;;;
          emit (EvGo s l) ;;;
          ret None
      end
  end.

(** Readings of a history. *)
Definition attachCalls (h : list Event)
  : list (UtilityVM * string * string * HNSEndpoint) :=
  flat_map (fun ev => match ev with
                      | EvAddEndpointToNSWithID vm ns nic ep _ =>
                          [(vm, ns, nic, ep)]
                      | _ => []
                      end) h.

Definition removeCalls (h : list Event)
  : list (UtilityVM * string * HNSEndpoint) :=
  flat_map (fun ev => match ev with
                      | EvRemoveEndpointFromNS vm ns ep _ => [(vm, ns, ep)]
                      | _ => []
                      end) h.

(** The serving tasks started, the services registered and the listeners
    closed in a history. *)
Definition started (h : list Event) : list (Server * Listener) :=
  flat_map (fun ev => match ev with
                      | EvGo s l => [(s, l)]
                      | _ => []
                      end) h.

Definition registered (h : list Event) : list (Server * computeAgent) :=
  flat_map (fun ev => match ev with
                      | EvRegisterComputeAgentService s ca => [(s, ca)]
                      | _ => []
                      end) h.

Definition closed (h : list Event) : list Listener :=
  flat_map (fun ev => match ev with
                      | EvClose l => [l]
                      | _ => []
                      end) h.

End Model.

Arguments removeCalls {HNSEndpoint Listener Server}.
Arguments started {HNSEndpoint Listener Server}.
Arguments registered {HNSEndpoint Listener Server}.
Arguments closed {HNSEndpoint Listener Server}.
Arguments EvListenPipe {HNSEndpoint Listener Server}.
Arguments EvRegisterComputeAgentService {HNSEndpoint Listener Server}.
Arguments EvGo {HNSEndpoint Listener Server}.
Arguments EvNewServer {HNSEndpoint Listener Server}.
Arguments answer_ListenPipe {HNSEndpoint Listener Server}.
Arguments answer_NewServer {HNSEndpoint Listener Server}.
Arguments EvLog {HNSEndpoint Listener Server}.
Arguments EvGetHNSEndpointByName {HNSEndpoint Listener Server}.
Arguments EvAddEndpointToNSWithID {HNSEndpoint Listener Server}.
Arguments EvRemoveEndpointFromNS {HNSEndpoint Listener Server}.
Arguments EvServe {HNSEndpoint Listener Server}.
Arguments EvClose {HNSEndpoint Listener Server}.
Arguments calls {HNSEndpoint Listener Server}.
Arguments attachCalls {HNSEndpoint Listener Server}.
Arguments AddNIC {HNSEndpoint Listener Server}.
Arguments DeleteNIC {HNSEndpoint Listener Server}.
Arguments serveTask {HNSEndpoint Listener Server}.
Arguments setupAndServe {HNSEndpoint Listener Server}.
Arguments fmt_Sprintf {HNSEndpoint Listener Server}.
Arguments endpoint_Namespace {HNSEndpoint Listener Server}.
Arguments answer_GetHNSEndpointByName {HNSEndpoint Listener Server}.
Arguments answer_AddEndpointToNSWithID {HNSEndpoint Listener Server}.
Arguments answer_RemoveEndpointFromNS {HNSEndpoint Listener Server}.
Arguments answer_Serve {HNSEndpoint Listener Server}.

End ComputeAgent.

(* ================================================================== *)
(** * wclayer: parent layer paths to layer descriptors *)
(* ================================================================== *)

Module Wclayer.
Import Go.

Section Model.
(** [guid.GUID] and the UTF-16 pointer the system call takes. *)
Variables GUID Utf16Ptr : Type.

Record WC_LAYER_DESCRIPTOR : Type := {
  LayerId : GUID;
  Flags : Z;
  Pathp : Utf16Ptr
}.

Inductive Event : Type :=
| EvDebugf (format : string) (args : list string).

(** Modelled from the spec: [NameToGuid] is declared in the package but not
    among the sources; the identity it gives is a function of the name
    alone. [filepath.Split] and [syscall.UTF16PtrFromString] are Go's. *)
Record Host : Type := {
  filepath_Split : string -> string * string;
  NameToGuid : string -> result GUID;
  UTF16PtrFromString : string -> result Utf16Ptr
}.

Variable host : Host.

(** The loop of lines 76-97, from path [i] on; [layers] is the slice built
    so far. The nil slice is the empty list. *)
Fixpoint layerPathsFrom (paths : list string)
    (layers : list WC_LAYER_DESCRIPTOR)
  : M (list Event) (list WC_LAYER_DESCRIPTOR * error) :=
  match paths with
  | [] => ret (layers, None)
  | path :: rest =>
      let (_, folderName) := filepath_Split host path in
      match NameToGuid host folderName with
      | Err e =>
          emit (EvDebugf "Failed to convert name to guid %s" [Error e]) ;;;
          ret ([], Some e)
      | Ok g =>
          match UTF16PtrFromString host path with
          | Err e =>
              emit (EvDebugf
                      "Failed conversion of parentLayerPath to pointer %s"
                      [Error e]) ;;;
              ret ([], Some e)
          | Ok p =>
              layerPathsFrom rest
                (layers ++ [{| LayerId := g; Flags := 0; Pathp := p |}])
          end
      end
  end.

Definition layerPathsToDescriptors (parentLayerPaths : list string)
  : M (list Event) (list WC_LAYER_DESCRIPTOR * error) :=
  layerPathsFrom parentLayerPaths [].

(** The final path component, as the loop takes it. *)
Definition folderNameOf (path : string) : string :=
  snd (filepath_Split host path).

(** Descriptor [d] is the one the loop builds for [path]. *)
Definition describes (path : string) (d : WC_LAYER_DESCRIPTOR)
  : Prop :=
  NameToGuid host (folderNameOf path) = Ok (LayerId d)
  /\ Flags d = 0%Z
  /\ UTF16PtrFromString host path = Ok (Pathp d).

(** Both conversions of [path] succeed. *)
Definition converts (path : string) : Prop :=
  (exists g, NameToGuid host (folderNameOf path) = Ok g)
  /\ (exists p, UTF16PtrFromString host path = Ok p).

(** The first conversion of [path] that fails, fails with [e]. *)
Definition failsWith (path : string) (e : err) : Prop :=
  NameToGuid host (folderNameOf path) = Err e
  \/ ((exists g, NameToGuid host (folderNameOf path) = Ok g)
      /\ UTF16PtrFromString host path = Err e).

End Model.

Arguments LayerId {GUID Utf16Ptr}.
Arguments Flags {GUID Utf16Ptr}.
Arguments Pathp {GUID Utf16Ptr}.
Arguments filepath_Split {GUID Utf16Ptr}.
Arguments NameToGuid {GUID Utf16Ptr}.
Arguments UTF16PtrFromString {GUID Utf16Ptr}.
Arguments layerPathsFrom {GUID Utf16Ptr}.
Arguments layerPathsToDescriptors {GUID Utf16Ptr}.
Arguments folderNameOf {GUID Utf16Ptr}.
Arguments describes {GUID Utf16Ptr}.
Arguments converts {GUID Utf16Ptr}.
Arguments failsWith {GUID Utf16Ptr}.

End Wclayer.

(* ================================================================== *)
(** * hcsv2: the workload container's spec before launch *)
(* ================================================================== *)

Module Hcsv2.
Import Go.
Local Open Scope Z_scope.

(** [oci.Mount]. *)
Record Mount : Type := {
  Destination : string;
  Type_ : string;
  Source : string;
  Options : list string
}.

Definition withSource (m : Mount) (source : string) : Mount :=
  {| Destination := Destination m; Type_ := Type_ m; Source := source;
     Options := Options m |}.

(** [oci.LinuxDevice]; the three pointer fields are options. *)
Record LinuxDevice : Type := {
  dev_Path : string;
  dev_Type : string;
  dev_Major : Z;
  dev_Minor : Z;
  dev_FileMode : option Z;
  dev_UID : option Z;
  dev_GID : option Z
}.

(** [oci.LinuxDeviceCgroup]. *)
Record LinuxDeviceCgroup : Type := {
  cg_Allow : bool;
  cg_Type : string;
  cg_Major : option Z;
  cg_Minor : option Z;
  cg_Access : string
}.

(** A device as [devices.HostDevices] lists it; [host_Type] is a rune, one
    of the letters naming a device type. *)
Record HostDevice : Type := {
  host_Path : string;
  host_Type : ascii;
  host_Major : Z;
  host_Minor : Z;
  host_Uid : Z;
  host_Gid : Z
}.

Section Model.
(** The parts of [oci.Spec] the function hands on untouched. *)
Variables WindowsSection SpecRest LinuxRest ResourcesRest : Type.

Record LinuxResources : Type := {
  res_Devices : list LinuxDeviceCgroup;
  res_rest : ResourcesRest
}.

Record Linux : Type := {
  Devices : list LinuxDevice;
  Resources : option LinuxResources;
  linux_rest : LinuxRest
}.

(** [oci.Spec]. [Annotations] is a map read by key; [Linux] and [Windows]
    are pointers. *)
Record Spec : Type := {
  Hostname : string;
  Mounts : list Mount;
  Annotations : string -> option string;
  Linux_ : option Linux;
  Windows : option WindowsSection;
  spec_rest : SpecRest
}.

Definition withMounts (spec : Spec) (mounts : list Mount) : Spec :=
  {| Hostname := Hostname spec; Mounts := mounts;
     Annotations := Annotations spec; Linux_ := Linux_ spec;
     Windows := Windows spec; spec_rest := spec_rest spec |}.

Definition withLinux (spec : Spec) (linux : Linux) : Spec :=
  {| Hostname := Hostname spec; Mounts := Mounts spec;
     Annotations := Annotations spec; Linux_ := Some linux;
     Windows := Windows spec; spec_rest := spec_rest spec |}.

Definition withoutWindows (spec : Spec) : Spec :=
  {| Hostname := Hostname spec; Mounts := Mounts spec;
     Annotations := Annotations spec; Linux_ := Linux_ spec;
     Windows := None; spec_rest := spec_rest spec |}.

(** [m[key]] of a Go map: the empty string when the key is absent. *)
Definition annotation (spec : Spec) (key : string) : string :=
  match Annotations spec key with
  | Some v => v
  | None => ""
  end.

Inductive Event : Type :=
| EvStartSpan (name : string)
| EvSpanAttributes (attrs : list (string * string))
| EvSetSpanStatus (e : error)
| EvSpanEnd
| EvStat (path : string) (res : error)
| EvMkdirAll (path : string) (perm : Z) (res : error)
| EvDebug (msg : string)
| EvWarnf (format : string) (dev : LinuxDevice)
| EvHostDevices (res : result (list HostDevice))
| EvSetUserStr (spec : Spec) (userstr : string) (res : error * Spec).

(** The helpers of the package that are not among the sources, Go's
    [os.IsNotExist], and one oracle per call to the system. *)
Record Host : Type := {
  fmt_Sprintf : string -> list string -> string;
  getSandboxMountsDir : string -> string;
  getSandboxHostnamePath : string -> string;
  getSandboxHostsPath : string -> string;
  getSandboxResolvPath : string -> string;
  isInMounts : string -> list Mount -> bool;
  isRootReadonly : Spec -> bool;
  os_IsNotExist : error -> bool;
  answer_Stat : string -> list Event -> error;
  answer_MkdirAll : string -> Z -> list Event -> error;
  answer_HostDevices : list Event -> result (list HostDevice);
  answer_setUserStr : Spec -> string -> list Event -> error * Spec
}.

Variable host : Host.

Definition sandboxMountPrefix : string := "sandbox://".

(** Lines 35-40: the directory is created when [os.Stat] says it does not
    exist; the answer is the error of [os.MkdirAll], if any (0755 is 493). *)
Definition ensureDir (sandboxSource : string) : M (list Event) error :=
  e <- call (answer_Stat host sandboxSource) (EvStat sandboxSource) ;;
  if os_IsNotExist host e
  then call (answer_MkdirAll host sandboxSource 493)
            (EvMkdirAll sandboxSource 493)
  else ret None.

(** The body of the loop of [updateSandboxMounts] from mount [i] on: the
    mounts before [i] are final, [mounts] are those from [i]. The result
    carries the mounts from [i] as the loop leaves them. *)
Fixpoint updateMountsFrom (sbid : string) (mounts : list Mount)
  : M (list Event) (error * list Mount) :=
  match mounts with
  | [] => ret (None, [])
  | m :: rest =>
      if HasPrefix (Source m) sandboxMountPrefix then
        let mountsDir := getSandboxMountsDir host sbid in
        let subPath := TrimPrefix (Source m) sandboxMountPrefix in
        let sandboxSource := filepath_Join [mountsDir; subPath] in
        if negb (HasPrefix sandboxSource mountsDir) then
          ret (Some (errors_Errorf (fmt_Sprintf host)
                 "mount path %v for mount %v is not within sandbox's mounts dir"
                 [sandboxSource; Source m]),
               m :: rest)
        else
          let m' := withSource m sandboxSource in
          e2 <- ensureDir sandboxSource ;;
          match e2 with
          | Some e' => ret (Some e', m' :: rest)
          | None =>
              r <- updateMountsFrom sbid rest ;;
              ret (fst r, m' :: snd r)
          end
      else
        r <- updateMountsFrom sbid rest ;;
        ret (fst r, m :: snd r)
  end.

Definition updateSandboxMounts (sbid : string) (spec : Spec)
  : M (list Event) (error * Spec) :=
  r <- updateMountsFrom sbid (Mounts spec) ;;
  ret (fst r, withMounts spec (snd r)).

(** Lines 64-76, 78-90 and 92-104: one bind mount unless the spec already
    has the destination. *)
Definition addBindMount (destination source : string) (spec : Spec) : Spec :=
  if negb (isInMounts host destination (Mounts spec)) then
    let options := ["bind"] in
    let options :=
      if isRootReadonly host spec then options ++ ["ro"] else options in
    withMounts spec
      (Mounts spec ++ [{| Destination := destination; Type_ := "bind";
                          Source := source; Options := options |}])
  else spec.

(** The inner loop of lines 133-142 over [spec.Linux.Devices]: the answer
    is [found] and the devices as the loop leaves them. *)
Fixpoint replaceDevice (rd : LinuxDevice) (devs : list LinuxDevice)
  : M (list Event) (bool * list LinuxDevice) :=
  match devs with
  | [] => ret (false, [])
  | dev :: rest =>
      if String.eqb (dev_Path dev) (dev_Path rd) then
        ret (true, rd :: rest)
      else
        (if String.eqb (dev_Type dev) (dev_Type rd)
            && (dev_Major dev =? dev_Major rd)
            && (dev_Minor dev =? dev_Minor rd)
         then emit (EvWarnf
                "The same type '%s', major '%d' and minor '%d', should not be used for multiple devices."
                dev)
         else ret tt) ;;;
        r <- replaceDevice rd rest ;;
        ret (fst r, dev :: snd r)
  end.

(** The loop of lines 119-146 over the host's devices. *)
Fixpoint addHostDevices (hostDevices : list HostDevice) (spec : Spec)
  : M (list Event) (outcome Spec) :=
  match hostDevices with
  | [] => ret (Returned spec)
  | hostDevice :: rest =>
      let rd := {| dev_Path := host_Path hostDevice;
                   dev_Type := String (host_Type hostDevice) EmptyString;
                   dev_Major := host_Major hostDevice;
                   dev_Minor := host_Minor hostDevice;
                   dev_FileMode := None;
                   dev_UID := Some (host_Uid hostDevice);
                   dev_GID := Some (host_Gid hostDevice) |} in
      if (host_Major hostDevice =? 0) && (host_Minor hostDevice =? 0) then
        addHostDevices rest spec
      else
        match Linux_ spec with
        | None => ret Panicked
        | Some linux =>
            r <- replaceDevice rd (Devices linux) ;;
            let devs := if fst r then snd r else snd r ++ [rd] in
            addHostDevices rest
              (withLinux spec {| Devices := devs;
                                 Resources := Resources linux;
                                 linux_rest := linux_rest linux |})
        end
  end.

(** Line 149: [spec.Linux.Resources.Devices = ...]. *)
Definition setCgroupAccess (spec : Spec) : outcome Spec :=
  match Linux_ spec with
  | None => Panicked
  | Some linux =>
      match Resources linux with
      | None => Panicked
      | Some res =>
          Returned
            (withLinux spec
               {| Devices := Devices linux;
                  Resources :=
                    Some {| res_Devices :=
                              [{| cg_Allow := true; cg_Type := "";
                                  cg_Major := None; cg_Minor := None;
                                  cg_Access := "rwm" |}];
                            res_rest := res_rest res |};
                  linux_rest := linux_rest linux |})
      end
  end.

(** The two deferred calls of lines 48-49, in the order they run; they see
    the named result. *)
Definition leave (r : outcome error) (spec : Spec)
  : M (list Event) (outcome error * Spec) :=
  emit (EvSetSpanStatus (match r with
                         | Returned e => e
                         | Panicked => None
                         end)) ;;;
  emit EvSpanEnd ;;;
  ret (r, spec).

(** Lines 157-166. *)
Definition finishSpec (spec : Spec)
  : M (list Event) (outcome error * Spec) :=
  match Annotations spec "io.microsoft.lcow.userstr" with
  | Some userstr =>
      r <- call (answer_setUserStr host spec userstr)
                (EvSetUserStr spec userstr) ;;
      match fst r with
      | Some e => leave (Returned (Some e)) (snd r)
      | None => leave (Returned None) (withoutWindows (snd r))
      end
  | None => leave (Returned None) (withoutWindows spec)
  end.

Definition setupWorkloadContainerSpec (sbid id : string) (spec : Spec)
  : M (list Event) (outcome error * Spec) :=
  emit (EvStartSpan "hcsv2::setupWorkloadContainerSpec") ;;;
  emit (EvSpanAttributes [("sandboxID", sbid); ("cid", id)]) ;;;
  if negb (String.eqb (Hostname spec) "") then
    leave (Returned (Some (errors_Errorf (fmt_Sprintf host)
             "workload container must not change hostname: %s"
             [Hostname spec])))
          spec
  else
    r <- updateSandboxMounts sbid spec ;;
    let spec := snd r in
    match fst r with
    | Some e =>
        leave (Returned (errors_Wrapf (fmt_Sprintf host) (Some e)
                 "failed to update sandbox mounts for container %v in sandbox %v"
                 [id; sbid]))
              spec
    | None =>
        let spec :=
          addBindMount "/etc/hostname" (getSandboxHostnamePath host sbid)
                       spec in
        let spec :=
          addBindMount "/etc/hosts" (getSandboxHostsPath host sbid) spec in
        let spec :=
          addBindMount "/etc/resolv.conf" (getSandboxResolvPath host sbid)
                       spec in
        if String.eqb
             (annotation spec "io.microsoft.virtualmachine.lcow.privileged")
             "true"
        then
          emit (EvDebug
            "'io.microsoft.virtualmachine.lcow.privileged' set for privileged container") ;;;
          hd <- call (answer_HostDevices host) EvHostDevices ;;
          match hd with
          | Err e => leave (Returned (Some e)) spec
          | Ok hostDevices =>
              o <- addHostDevices hostDevices spec ;;
              match o with
              | Panicked => leave Panicked spec
              | Returned spec' =>
                  match setCgroupAccess spec' with
                  | Panicked => leave Panicked spec'
                  | Returned spec'' => finishSpec spec''
                  end
              end
          end
        else finishSpec spec
    end.

(** What the loop makes of one mount it gets past: the source of a mount
    with the prefix is the joined path, which starts with the mounts
    directory as a string; any other mount is as it was. *)
Definition sandboxSourceOf (sbid : string) (m : Mount) : string :=
  filepath_Join [getSandboxMountsDir host sbid;
                 TrimPrefix (Source m) sandboxMountPrefix].

Definition rewritten (sbid : string) (m m' : Mount) : Prop :=
  if HasPrefix (Source m) sandboxMountPrefix
  then m' = withSource m (sandboxSourceOf sbid m)
       /\ HasPrefix (Source m') (getSandboxMountsDir host sbid) = true
  else m' = m.

(** Where the loop stopped with an error: at mount [m], after the mounts
    [pre]; [m'] is what it left in the place of [m]. Either the joined path
    does not start with the mounts directory and [m] is untouched, or it
    does, [m] has its new source and creating the directory failed. *)
Definition stoppedAt (sbid : string) (mounts result : list Mount) : Prop :=
  exists pre pre' m m' post,
    mounts = pre ++ m :: post
    /\ result = pre' ++ m' :: post
    /\ Forall2 (rewritten sbid) pre pre'
    /\ HasPrefix (Source m) sandboxMountPrefix = true
    /\ ((m' = m
         /\ HasPrefix (sandboxSourceOf sbid m)
                      (getSandboxMountsDir host sbid) = false)
        \/ (m' = withSource m (sandboxSourceOf sbid m)
            /\ HasPrefix (sandboxSourceOf sbid m)
                         (getSandboxMountsDir host sbid) = true)).

(** The fields of a spec other than its mounts, its Linux section and its
    Windows section. *)
Definition sameIdentity (spec spec' : Spec) : Prop :=
  Hostname spec' = Hostname spec
  /\ Annotations spec' = Annotations spec
  /\ spec_rest spec' = spec_rest spec.

(** A mount as lines 64-104 inject it. *)
Definition injected (sbid : string) (m : Mount) : Prop :=
  Type_ m = "bind"
  /\ (Options m = ["bind"] \/ Options m = ["bind"; "ro"])
  /\ In (Destination m, Source m)
        [("/etc/hostname", getSandboxHostnamePath host sbid);
         ("/etc/hosts", getSandboxHostsPath host sbid);
         ("/etc/resolv.conf", getSandboxResolvPath host sbid)].

(** A host device the loop of lines 119-146 does not skip. *)
Definition validDevice (hd : HostDevice) : Prop :=
  (host_Major hd =? 0) && (host_Minor hd =? 0) = false.

Definition devicePaths (linux : Linux) : list string :=
  map dev_Path (Devices linux).

(** The spec has no Linux section, or one without resources. *)
Definition lacksResources (spec : Spec) : Prop :=
  match Linux_ spec with
  | None => True
  | Some linux => Resources linux = None
  end.

(** The paths looked up and the directories created in a history. *)
Definition statCalls (h : list Event) : list string :=
  flat_map (fun ev => match ev with
                      | EvStat path _ => [path]
                      | _ => []
                      end) h.

Definition mkdirCalls (h : list Event) : list (string * Z) :=
  flat_map (fun ev => match ev with
                      | EvMkdirAll path perm _ => [(path, perm)]
                      | _ => []
                      end) h.

(** Where a path lies: [path] is within directory [dir] when it is the
    directory itself or continues it after a separator. *)
Definition withinDir (dir path : string) : bool :=
  String.eqb path dir || HasPrefix path (dir ++ "/").

End Model.

Arguments Hostname {WindowsSection SpecRest LinuxRest ResourcesRest}.
Arguments Mounts {WindowsSection SpecRest LinuxRest ResourcesRest}.
Arguments Annotations {WindowsSection SpecRest LinuxRest ResourcesRest}.
Arguments Linux_ {WindowsSection SpecRest LinuxRest ResourcesRest}.
Arguments Windows {WindowsSection SpecRest LinuxRest ResourcesRest}.
Arguments spec_rest {WindowsSection SpecRest LinuxRest ResourcesRest}.
Arguments withMounts {WindowsSection SpecRest LinuxRest ResourcesRest}.
Arguments EvStartSpan {WindowsSection SpecRest LinuxRest ResourcesRest}.
Arguments EvSpanAttributes {WindowsSection SpecRest LinuxRest ResourcesRest}.
Arguments EvSetSpanStatus {WindowsSection SpecRest LinuxRest ResourcesRest}.
Arguments EvSpanEnd {WindowsSection SpecRest LinuxRest ResourcesRest}.
Arguments EvStat {WindowsSection SpecRest LinuxRest ResourcesRest}.
Arguments EvMkdirAll {WindowsSection SpecRest LinuxRest ResourcesRest}.
Arguments fmt_Sprintf {WindowsSection SpecRest LinuxRest ResourcesRest}.
Arguments getSandboxMountsDir {WindowsSection SpecRest LinuxRest ResourcesRest}.
Arguments os_IsNotExist {WindowsSection SpecRest LinuxRest ResourcesRest}.
Arguments answer_Stat {WindowsSection SpecRest LinuxRest ResourcesRest}.
Arguments answer_MkdirAll {WindowsSection SpecRest LinuxRest ResourcesRest}.
Arguments ensureDir {WindowsSection SpecRest LinuxRest ResourcesRest}.
Arguments updateMountsFrom {WindowsSection SpecRest LinuxRest ResourcesRest}.
Arguments sandboxSourceOf {WindowsSection SpecRest LinuxRest ResourcesRest}.
Arguments rewritten {WindowsSection SpecRest LinuxRest ResourcesRest}.
Arguments stoppedAt {WindowsSection SpecRest LinuxRest ResourcesRest}.
Arguments statCalls {WindowsSection SpecRest LinuxRest ResourcesRest}.
Arguments devicePaths {LinuxRest ResourcesRest}.
Arguments lacksResources {WindowsSection SpecRest LinuxRest ResourcesRest}.
Arguments sameIdentity {WindowsSection SpecRest LinuxRest ResourcesRest}.
Arguments injected {WindowsSection SpecRest LinuxRest ResourcesRest}.
Arguments Devices {LinuxRest ResourcesRest}.
Arguments Resources {LinuxRest ResourcesRest}.
Arguments linux_rest {LinuxRest ResourcesRest}.
Arguments annotation {WindowsSection SpecRest LinuxRest ResourcesRest}.
Arguments withLinux {WindowsSection SpecRest LinuxRest ResourcesRest}.
Arguments withoutWindows {WindowsSection SpecRest LinuxRest ResourcesRest}.
Arguments addBindMount {WindowsSection SpecRest LinuxRest ResourcesRest}.
Arguments replaceDevice {WindowsSection SpecRest LinuxRest ResourcesRest}.
Arguments addHostDevices {WindowsSection SpecRest LinuxRest ResourcesRest}.
Arguments setCgroupAccess {WindowsSection SpecRest LinuxRest ResourcesRest}.
Arguments leave {WindowsSection SpecRest LinuxRest ResourcesRest}.
Arguments finishSpec {WindowsSection SpecRest LinuxRest ResourcesRest}.
Arguments getSandboxHostnamePath {WindowsSection SpecRest LinuxRest ResourcesRest}.
Arguments getSandboxHostsPath {WindowsSection SpecRest LinuxRest ResourcesRest}.
Arguments getSandboxResolvPath {WindowsSection SpecRest LinuxRest ResourcesRest}.
Arguments isInMounts {WindowsSection SpecRest LinuxRest ResourcesRest}.
Arguments isRootReadonly {WindowsSection SpecRest LinuxRest ResourcesRest}.
Arguments answer_HostDevices {WindowsSection SpecRest LinuxRest ResourcesRest}.
Arguments answer_setUserStr {WindowsSection SpecRest LinuxRest ResourcesRest}.
Arguments EvDebug {WindowsSection SpecRest LinuxRest ResourcesRest}.
Arguments EvHostDevices {WindowsSection SpecRest LinuxRest ResourcesRest}.
Arguments mkdirCalls {WindowsSection SpecRest LinuxRest ResourcesRest}.
Arguments updateSandboxMounts {WindowsSection SpecRest LinuxRest ResourcesRest}.
Arguments setupWorkloadContainerSpec
  {WindowsSection SpecRest LinuxRest ResourcesRest}.

End Hcsv2.

(* ================================================================== *)
(** * Sample hosts, used to run the functions on concrete inputs *)
(* ================================================================== *)

Module Samples.
Import Go.

(** A formatter good enough to tell messages apart: the format, then the
    arguments. *)
Definition sprintf (format : string) (args : list string) : string :=
  format ++ " <- " ++ strings_Join args ", ".

(** ** A compute agent whose HNS knows two endpoints *)

Definition Endpoint : Type := string * option ComputeAgent.Namespace.

Definition agentHost : ComputeAgent.Host Endpoint nat nat :=
  {| ComputeAgent.fmt_Sprintf := sprintf;
     ComputeAgent.endpoint_Namespace := snd;
     ComputeAgent.listener_Addr := fun _ => "computeagent-vm1";
     ComputeAgent.answer_GetHNSEndpointByName := fun name _ =>
       if String.eqb name "eth-test"
       then Ok ("eth-test", Some {| ComputeAgent.ID := "ns-1" |})
       else if String.eqb name "eth-busy"
       then Ok ("eth-busy", Some {| ComputeAgent.ID := "ns-busy" |})
       else if String.eqb name "eth-loose"
       then Ok ("eth-loose", None)
       else Err (errorString "Endpoint not found");
     ComputeAgent.answer_AddEndpointToNSWithID := fun _ _ nicID _ _ =>
       if String.eqb nicID "nic-refused"
       then Some (errorString "guest refused the NIC")
       else None;
     ComputeAgent.answer_RemoveEndpointFromNS := fun _ nsID _ _ =>
       if String.eqb nsID "ns-busy"
       then Some (errorString "namespace is busy")
       else None;
     ComputeAgent.answer_ListenPipe := fun _ _ => Ok 7%nat;
     ComputeAgent.answer_NewServer := fun _ => Ok 9%nat;
     ComputeAgent.answer_Serve := fun _ _ _ =>
       Some (errorString "accept: use of closed network connection") |}.

Definition windowsVM : UvmShare.UtilityVM :=
  {| UvmShare.operatingSystem := "windows" |}.

Definition linuxVM : UvmShare.UtilityVM :=
  {| UvmShare.operatingSystem := "linux" |}.

Definition agent : ComputeAgent.computeAgent :=
  {| ComputeAgent.uvm := windowsVM |}.

Definition addReq (endpointName nicID : string)
  : ComputeAgent.AddNICInternalRequest :=
  {| ComputeAgent.add_ContainerID := "c1";
     ComputeAgent.add_NicID := nicID;
     ComputeAgent.add_EndpointName := endpointName |}.

Definition delReq (endpointName nicID : string)
  : ComputeAgent.DeleteNICInternalRequest :=
  {| ComputeAgent.del_ContainerID := "c1";
     ComputeAgent.del_NicID := nicID;
     ComputeAgent.del_EndpointName := endpointName |}.

(** ** A host for [Share]

    Share handles are the host paths they stand for, the options are the
    read-only flag, and a [FileInfo] says only whether it is a directory. *)

Definition isSep (c : ascii) : bool :=
  Ascii.eqb c "/"%char || Ascii.eqb c "\"%char.

(** Splits after the last separator. *)
Fixpoint splitPath (path : string) : string * string :=
  match path with
  | EmptyString => (EmptyString, EmptyString)
  | String c path' =>
      let (dir, file) := splitPath path' in
      if String.eqb dir "" then
        if isSep c then (String c EmptyString, file)
        else (EmptyString, String c file)
      else (String c dir, file)
  end.

Definition shareHost : UvmShare.Host bool string string bool :=
  {| UvmShare.fmt_Sprintf := sprintf;
     UvmShare.filepath_Split := splitPath;
     UvmShare.IsDir := fun st => st;
     UvmShare.DefaultVSMBOptions := fun _ readOnly => readOnly;
     UvmShare.answer_AddVSMB := fun _ hostPath _ _ =>
       if String.eqb hostPath "C:\missing"
       then Err (errorString "The system cannot find the path specified")
       else Ok hostPath;
     UvmShare.answer_VSMBRelease := fun _ _ => None;
     UvmShare.answer_GetVSMBUvmPath := fun _ hostPath _ _ =>
       if String.eqb hostPath "C:\unmapped"
       then Err (errorString "not found")
       else Ok ("\\?\VMSMB\VSMB-0\s1");
     UvmShare.answer_GuestRequest := fun _ req _ =>
       if String.eqb (UvmShare.ContainerPath (UvmShare.Settings req))
                     "C:\refused"
       then Some (errorString "guest refused the mapping")
       else None;
     UvmShare.answer_Stat := fun path _ =>
       if String.eqb path "C:\data\notes.txt" then Ok false
       else if String.eqb path "C:\data" then Ok true
       else Err (errorString "The system cannot find the file specified");
     UvmShare.answer_AddPlan9 := fun _ hostPath _ _ _ _ _ => Ok hostPath;
     UvmShare.answer_Plan9Release := fun _ _ => None |}.

(** ** A host for the layer descriptors

    The GUID of a name is the name with a tag in front; the empty name has
    none. A path converts to itself, except one the sample calls invalid. *)

Definition layerHost : Wclayer.Host string string :=
  {| Wclayer.filepath_Split := splitPath;
     Wclayer.NameToGuid := fun name =>
       if String.eqb name ""
       then Err (errorString "The parameter is incorrect")
       else Ok ("guid:" ++ name)%string;
     Wclayer.UTF16PtrFromString := fun path =>
       if String.eqb path "C:\layers\nul"
       then Err (errorString "invalid argument")
       else Ok path |}.

(** ** A guest for the workload spec

    The sandbox directories follow the package's layout: a root per sandbox
    under a fixed directory, the mounts directory and the three files below
    it, each path made by [filepath.Join] as [getWorkloadRootDir] is. Nothing
    exists yet in the mounts directory, and creating succeeds. *)

Definition HcsSpec : Type := Hcsv2.Spec unit unit unit unit.

Definition hcsHostAt (root : string) : Hcsv2.Host unit unit unit unit :=
  {| Hcsv2.fmt_Sprintf := sprintf;
     Hcsv2.getSandboxMountsDir := fun sbid =>
       filepath_Join [filepath_Join [root; sbid]; "sandboxMounts"];
     Hcsv2.getSandboxHostnamePath := fun sbid =>
       filepath_Join [filepath_Join [root; sbid]; "hostname"];
     Hcsv2.getSandboxHostsPath := fun sbid =>
       filepath_Join [filepath_Join [root; sbid]; "hosts"];
     Hcsv2.getSandboxResolvPath := fun sbid =>
       filepath_Join [filepath_Join [root; sbid]; "resolv.conf"];
     Hcsv2.isInMounts := fun target mounts =>
       existsb (fun m => String.eqb (filepath_Clean (Hcsv2.Destination m))
                                    target) mounts;
     Hcsv2.isRootReadonly := fun _ => false;
     Hcsv2.os_IsNotExist := fun e =>
       match e with
       | Some e' => Contains (Error e') "no such file or directory"
       | None => false
       end;
     Hcsv2.answer_Stat := fun _ _ =>
       Some (errorString "stat: no such file or directory");
     Hcsv2.answer_MkdirAll := fun _ _ _ => None;
     Hcsv2.answer_HostDevices := fun _ => Ok [];
     Hcsv2.answer_setUserStr := fun spec _ _ => (None, spec) |}.

Definition hcsHost : Hcsv2.Host unit unit unit unit :=
  hcsHostAt "/run/gcs/c".

Definition bindMount (destination source : string) : Hcsv2.Mount :=
  {| Hcsv2.Destination := destination; Hcsv2.Type_ := "bind";
     Hcsv2.Source := source; Hcsv2.Options := ["rbind"] |}.

Definition specWith (hostname : string) (mounts : list Hcsv2.Mount)
  : HcsSpec :=
  {| Hcsv2.Hostname := hostname; Hcsv2.Mounts := mounts;
     Hcsv2.Annotations := fun _ => None; Hcsv2.Linux_ := None;
     Hcsv2.Windows := Some tt; Hcsv2.spec_rest := tt |}.

(** A spec asking for the privileged set-up, without a Linux section. *)
Definition privilegedSpec : HcsSpec :=
  {| Hcsv2.Hostname := ""; Hcsv2.Mounts := [];
     Hcsv2.Annotations := fun key =>
       if String.eqb key "io.microsoft.virtualmachine.lcow.privileged"
       then Some "true" else None;
     Hcsv2.Linux_ := None;
     Hcsv2.Windows := Some tt; Hcsv2.spec_rest := tt |}.

(** A spec that lists /dev/null, and what a host may list: /dev/null again,
    /dev/zero, and a symbolic link that has no device numbers. *)
Definition charDevice (path : string) (major minor : Z) : Hcsv2.HostDevice :=
  {| Hcsv2.host_Path := path; Hcsv2.host_Type := "c"%char;
     Hcsv2.host_Major := major; Hcsv2.host_Minor := minor;
     Hcsv2.host_Uid := 0%Z; Hcsv2.host_Gid := 0%Z |}.

Definition sampleHostDevices : list Hcsv2.HostDevice :=
  [charDevice "/dev/null" 1 3; charDevice "/dev/fd" 0 0;
   charDevice "/dev/zero" 1 5].

Definition sampleLinux : Hcsv2.Linux unit unit :=
  {| Hcsv2.Devices :=
       [{| Hcsv2.dev_Path := "/dev/null"; Hcsv2.dev_Type := "c";
           Hcsv2.dev_Major := 1%Z; Hcsv2.dev_Minor := 3%Z;
           Hcsv2.dev_FileMode := Some 438%Z;
           Hcsv2.dev_UID := None; Hcsv2.dev_GID := None |}];
     Hcsv2.Resources := None;
     Hcsv2.linux_rest := tt |}.

Definition deviceSpec : HcsSpec :=
  {| Hcsv2.Hostname := ""; Hcsv2.Mounts := [];
     Hcsv2.Annotations := fun _ => None;
     Hcsv2.Linux_ := Some sampleLinux;
     Hcsv2.Windows := None; Hcsv2.spec_rest := tt |}.

End Samples.

(* ================================================================== *)
(** * Properties *)
(* ================================================================== *)

Import Go.

(** ** Strings *)

Example Clean_examples :
  filepath_Clean "" = "." /\
  filepath_Clean "/.." = "/" /\
  filepath_Clean "a/../.." = ".." /\
  filepath_Clean "a//b/./c/.." = "a/b" /\
  filepath_Clean "/a/b/../../../c/" = "/c" /\
  filepath_Clean "../../a/.." = "../.." /\
  filepath_Join ["a"; "b/../c"] = "a/c" /\
  filepath_Join [""; ""] = "" /\
  filepath_Join ["a"; ""] = "a" /\
  filepath_Join [""; "/x"; "y"] = "/x/y".
Proof. repeat split; reflexivity. Qed.

Lemma HasPrefix_spec (s prefix : string) :
  HasPrefix s prefix = true <-> exists rest, s = (prefix ++ rest)%string.
Proof.
  revert s; induction prefix as [|c prefix IH]; intros s; simpl.
  - split; [intros _; now exists s | reflexivity].
  - destruct s as [|d s].
    + split; [discriminate | intros [rest H]; discriminate].
    + rewrite andb_true_iff, Ascii.eqb_eq, IH. split.
      * intros [-> [rest ->]]. now exists rest.
      * intros [rest H]. injection H as -> ->. split; [reflexivity | now exists rest].
Qed.

Lemma Contains_spec (s substr : string) :
  Contains s substr = true <->
  exists pre post, s = (pre ++ substr ++ post)%string.
Proof.
  induction s as [|c s IH]; simpl.
  - rewrite HasPrefix_spec. split.
    + intros [rest H]. now exists "", rest.
    + intros [pre [post H]]. destruct pre; simpl in H.
      * now exists post.
      * discriminate.
  - rewrite orb_true_iff, IH, HasPrefix_spec. split.
    + intros [[rest H] | [pre [post H]]].
      * now exists "", rest.
      * exists (String c pre), post. simpl. now rewrite H.
    + intros [pre [post H]]. destruct pre as [|d pre]; simpl in H.
      * left. now exists post.
      * right. injection H as _ H. now exists pre, post.
Qed.

(** ** The compute agent *)

Section ComputeAgentProperties.
Import ComputeAgent.
Context {HNSEndpoint Listener Server : Type}.
Variable host : Host HNSEndpoint Listener Server.

Lemma calls_app (h1 h2 : list (Event HNSEndpoint Listener Server)) :
  calls (h1 ++ h2) = calls h1 ++ calls h2.
Proof. apply filter_app. Qed.

Lemma calls_log (h : list (Event HNSEndpoint Listener Server))
    level fields msg :
  calls (h ++ [EvLog level fields msg]) = calls h.
Proof. rewrite calls_app. simpl. apply app_nil_r. Qed.

Lemma attachCalls_app (h1 h2 : list (Event HNSEndpoint Listener Server)) :
  attachCalls (h1 ++ h2) = attachCalls h1 ++ attachCalls h2.
Proof. apply flat_map_app. Qed.

Ltac run :=
  unfold AddNIC, DeleteNIC, serveTask, log_Info, hns_GetHNSEndpointByName,
    AddEndpointToNSWithID, RemoveEndpointFromNS, callOut, bind, call, emit,
    ret;
  cbn beta iota zeta;
  rewrite ?calls_log.

(** C2. [trapClosedConnErr] gives nil exactly for nil and for an error
    whose message contains "use of closed network connection", and gives
    the error back otherwise; the serving task ends in a clean shutdown on
    nil and takes the process down on anything else. *)
Theorem trapClosedConnErr_classifies (e : error) :
  (trapClosedConnErr e = None <->
     e = None \/
     exists e' pre post,
       e = Some e' /\
       Error e' =
         (pre ++ "use of closed network connection" ++ post)%string)
  /\ (trapClosedConnErr e <> None -> trapClosedConnErr e = e)
  /\ forall s l h,
       let r := answer_Serve host s l (calls h) in
       serveTask host s l h =
         match trapClosedConnErr r with
         | None => (CleanShutdown, h ++ [EvServe s l r] ++ [EvClose l])
         | Some e' =>
             (ProcessExit e',
              h ++ [EvServe s l r]
                ++ [EvLog Fatal [("error", Error e')]
                          "compute agent: serve failure"])
         end.
Proof.
  split; [|split].
  - destruct e as [e'|]; simpl.
    + destruct (Contains (Error e') "use of closed network connection")
        eqn:C.
      * split; [intros _ | reflexivity].
        right. apply Contains_spec in C. destruct C as [pre [post C]].
        now exists e', pre, post.
      * split; [discriminate|].
        intros [H | [e'' [pre [post [H1 H2]]]]]; [discriminate|].
        injection H1 as <-.
        assert (Contains (Error e') "use of closed network connection"
                = true) as C'
          by (apply Contains_spec; now exists pre, post).
        congruence.
    + split; [now left | reflexivity].
  - destruct e as [e'|]; simpl; [|congruence].
    destruct (Contains _ _); congruence.
  - intros s l h r. run. fold r.
    destruct (trapClosedConnErr r); now rewrite <- app_assoc.
Qed.

(** C5. When the endpoint name does not resolve, [AddNIC] answers a nil
    response and the resolution error wrapped with the endpoint name, and
    asks the VM for no attach; when the name resolves and the attach
    succeeds, it answers the empty response and a nil error, and the one
    attach it asked for carries the endpoint's namespace ID, the request's
    NIC ID and the endpoint. *)
Theorem AddNIC_resolution_and_attach
    (ca : computeAgent) (req : AddNICInternalRequest)
    (h : list (Event HNSEndpoint Listener Server)) :
  let name := add_EndpointName req in
  (forall e,
     answer_GetHNSEndpointByName host name (calls h) = Err e ->
     exists h',
       AddNIC host ca req h =
         (Returned
            (None,
             Some (withMessage e
                     (fmt_Sprintf host "failed to get endpoint with name %q"
                                  [name]))),
          h')
       /\ attachCalls h' = attachCalls h)
  /\
  (forall endpoint ns,
     answer_GetHNSEndpointByName host name (calls h) = Ok endpoint ->
     endpoint_Namespace host endpoint = Some ns ->
     answer_AddEndpointToNSWithID host (uvm ca) (ID ns) (add_NicID req)
       endpoint (calls h ++ [EvGetHNSEndpointByName name (Ok endpoint)])
       = None ->
     exists h',
       AddNIC host ca req h =
         (Returned (Some mkAddNICInternalResponse, None), h')
       /\ attachCalls h' =
            attachCalls h ++ [(uvm ca, ID ns, add_NicID req, endpoint)]).
Proof.
  intros name; split.
  - intros e He. eexists. run. fold name. rewrite He. split; [reflexivity|].
    rewrite !attachCalls_app. simpl. now rewrite !app_nil_r.
  - intros endpoint ns Hep Hns Hadd. eexists. run. fold name.
    rewrite Hep, Hns. rewrite calls_app, calls_log. simpl.
    rewrite Hadd. split; [reflexivity|].
    rewrite !attachCalls_app. simpl. now rewrite !app_nil_r.
Qed.

(** C6, as the code has it. When the attach or the remove the agent
    delegates to fails, the caller gets that very error back, unwrapped;
    only the error of the endpoint lookup is wrapped with the endpoint
    name. *)
Theorem delegate_error_returned_unchanged
    (ca : computeAgent) (h : list (Event HNSEndpoint Listener Server)) :
  (forall req endpoint ns e,
     let name := add_EndpointName req in
     answer_GetHNSEndpointByName host name (calls h) = Ok endpoint ->
     endpoint_Namespace host endpoint = Some ns ->
     answer_AddEndpointToNSWithID host (uvm ca) (ID ns) (add_NicID req)
       endpoint (calls h ++ [EvGetHNSEndpointByName name (Ok endpoint)])
       = Some e ->
     fst (AddNIC host ca req h) = Returned (None, Some e))
  /\
  (forall req endpoint ns e,
     let name := del_EndpointName req in
     answer_GetHNSEndpointByName host name (calls h) = Ok endpoint ->
     endpoint_Namespace host endpoint = Some ns ->
     answer_RemoveEndpointFromNS host (uvm ca) (ID ns) endpoint
       (calls h ++ [EvGetHNSEndpointByName name (Ok endpoint)])
       = Some e ->
     fst (DeleteNIC host ca req h) = Returned (None, Some e)).
Proof.
  split; intros req endpoint ns e name Hep Hns Hd; run; fold name;
    rewrite Hep, Hns, calls_app, calls_log; simpl; now rewrite Hd.
Qed.

(** C9. [DeleteNIC] does not depend on the request's NIC ID: two requests
    that differ in nothing else make the same calls (one lookup of the
    endpoint name, then at most one remove keyed by the endpoint's
    namespace ID and the endpoint) and get the same answer. *)
Theorem DeleteNIC_ignores_nicID
    (ca : computeAgent) (containerID endpointName nicID1 nicID2 : string)
    (h : list (Event HNSEndpoint Listener Server)) :
  let req1 := {| del_ContainerID := containerID; del_NicID := nicID1;
                 del_EndpointName := endpointName |} in
  let req2 := {| del_ContainerID := containerID; del_NicID := nicID2;
                 del_EndpointName := endpointName |} in
  fst (DeleteNIC host ca req1 h) = fst (DeleteNIC host ca req2 h)
  /\ calls (snd (DeleteNIC host ca req1 h))
     = calls (snd (DeleteNIC host ca req2 h))
  /\ exists lookup rest,
       calls (snd (DeleteNIC host ca req1 h))
         = calls h ++ EvGetHNSEndpointByName endpointName lookup :: rest
       /\ match lookup with
          | Ok endpoint =>
              match endpoint_Namespace host endpoint with
              | Some ns =>
                  exists res,
                    rest = [EvRemoveEndpointFromNS (uvm ca) (ID ns) endpoint
                                                   res]
              | None => rest = []
              end
          | Err _ => rest = []
          end.
Proof.
  intros req1 req2. run. simpl.
  destruct (answer_GetHNSEndpointByName host endpointName (calls h))
    as [endpoint|e] eqn:Hep; simpl.
  - destruct (endpoint_Namespace host endpoint) as [ns|] eqn:Hns; simpl.
    + rewrite !calls_app. simpl. rewrite !app_nil_r.
      destruct (answer_RemoveEndpointFromNS host (uvm ca) (ID ns) endpoint _)
        eqn:Hrm; simpl;
        rewrite !calls_app; simpl; rewrite !app_nil_r;
        (split; [reflexivity|]; split; [reflexivity|]);
        exists (Ok endpoint); eexists; rewrite <- app_assoc;
        (split; [reflexivity|]); rewrite Hns; eexists; reflexivity.
    + rewrite !calls_app. simpl. rewrite !app_nil_r.
      split; [reflexivity|]. split; [reflexivity|].
      exists (Ok endpoint), []. split; [reflexivity|]. now rewrite Hns.
  - rewrite !calls_app. simpl. rewrite !app_nil_r.
    split; [reflexivity|]. split; [reflexivity|].
    exists (Err e), []. split; reflexivity.
Qed.

End ComputeAgentProperties.

Example trapClosedConnErr_examples :
  ComputeAgent.trapClosedConnErr
    (Some (errorString "accept: use of closed network connection")) = None
  /\ ComputeAgent.trapClosedConnErr (Some (errorString "broken pipe"))
     = Some (errorString "broken pipe")
  /\ ComputeAgent.trapClosedConnErr None = None
  /\ fst (ComputeAgent.serveTask Samples.agentHost 9%nat 7%nat [])
     = ComputeAgent.CleanShutdown.
Proof. repeat split; reflexivity. Qed.

Example AddNIC_then_DeleteNIC_example :
  fst (ComputeAgent.AddNIC Samples.agentHost Samples.agent
         (Samples.addReq "eth-test" "nic-1") [])
    = Returned (Some ComputeAgent.mkAddNICInternalResponse, None)
  /\ fst (ComputeAgent.DeleteNIC Samples.agentHost Samples.agent
            (Samples.delReq "eth-test" "nic-1") [])
     = Returned (Some ComputeAgent.mkDeleteNICInternalResponse, None)
  /\ fst (ComputeAgent.AddNIC Samples.agentHost Samples.agent
            (Samples.addReq "eth-loose" "nic-1") [])
     = Panicked.
Proof. repeat split; reflexivity. Qed.

(** The two cases of C5 on the sample agent: an unknown endpoint name, and
    the endpoint "eth-test" of namespace "ns-1". *)
Lemma AddNIC_resolution_and_attach_witness :
  (exists h',
     ComputeAgent.AddNIC Samples.agentHost Samples.agent
       (Samples.addReq "eth-none" "nic-1") []
     = (Returned
          (None,
           Some (withMessage (errorString "Endpoint not found")
                   (Samples.sprintf "failed to get endpoint with name %q"
                                    ["eth-none"]))),
        h')
     /\ ComputeAgent.attachCalls h' = [])
  /\
  (exists h',
     ComputeAgent.AddNIC Samples.agentHost Samples.agent
       (Samples.addReq "eth-test" "nic-1") []
     = (Returned (Some ComputeAgent.mkAddNICInternalResponse, None), h')
     /\ ComputeAgent.attachCalls h'
        = [(Samples.windowsVM, "ns-1", "nic-1",
            ("eth-test", Some {| ComputeAgent.ID := "ns-1" |}))]).
Proof.
  split.
  - apply (proj1 (AddNIC_resolution_and_attach Samples.agentHost
                    Samples.agent (Samples.addReq "eth-none" "nic-1") [])).
    reflexivity.
  - apply (proj2 (AddNIC_resolution_and_attach Samples.agentHost
                    Samples.agent (Samples.addReq "eth-test" "nic-1") [])
             ("eth-test", Some {| ComputeAgent.ID := "ns-1" |})
             {| ComputeAgent.ID := "ns-1" |});
      reflexivity.
Defined.

(** C6 as stated fails: the guest refuses the NIC, and what [AddNIC] hands
    back is the refusal itself, not a wrapper around it; the same for a
    remove the namespace refuses. *)
Lemma delegate_error_is_not_wrapped :
  let refusal := errorString "guest refused the NIC" in
  let busy := errorString "namespace is busy" in
  ComputeAgent.answer_AddEndpointToNSWithID Samples.agentHost
    Samples.windowsVM "ns-1" "nic-refused"
    ("eth-test", Some {| ComputeAgent.ID := "ns-1" |})
    [ComputeAgent.EvGetHNSEndpointByName "eth-test"
       (Ok ("eth-test", Some {| ComputeAgent.ID := "ns-1" |}))]
    = Some refusal
  /\ fst (ComputeAgent.AddNIC Samples.agentHost Samples.agent
            (Samples.addReq "eth-test" "nic-refused") [])
     = Returned (None, Some refusal)
  /\ ~ (exists msg, Some refusal = Some (withMessage refusal msg))
  /\ fst (ComputeAgent.DeleteNIC Samples.agentHost Samples.agent
            (Samples.delReq "eth-busy" "nic-1") [])
     = Returned (None, Some busy)
  /\ ~ (exists msg, Some busy = Some (withMessage busy msg)).
Proof.
  cbv zeta. repeat split; try reflexivity; intros [msg H]; discriminate.
Qed.

Lemma delegate_error_returned_unchanged_witness :
  fst (ComputeAgent.AddNIC Samples.agentHost Samples.agent
         (Samples.addReq "eth-test" "nic-refused") [])
    = Returned (None, Some (errorString "guest refused the NIC"))
  /\ fst (ComputeAgent.DeleteNIC Samples.agentHost Samples.agent
            (Samples.delReq "eth-busy" "nic-1") [])
     = Returned (None, Some (errorString "namespace is busy")).
Proof.
  split.
  - apply (proj1 (delegate_error_returned_unchanged Samples.agentHost
                    Samples.agent [])
             (Samples.addReq "eth-test" "nic-refused")
             ("eth-test", Some {| ComputeAgent.ID := "ns-1" |})
             {| ComputeAgent.ID := "ns-1" |});
      reflexivity.
  - apply (proj2 (delegate_error_returned_unchanged Samples.agentHost
                    Samples.agent [])
             (Samples.delReq "eth-busy" "nic-1")
             ("eth-busy", Some {| ComputeAgent.ID := "ns-busy" |})
             {| ComputeAgent.ID := "ns-busy" |});
      reflexivity.
Defined.

(** ** Share *)

Example splitPath_examples :
  Samples.splitPath "C:\data\notes.txt" = ("C:\data\", "notes.txt")
  /\ Samples.splitPath "notes.txt" = ("", "notes.txt")
  /\ Samples.splitPath "a/b/" = ("a/b/", "").
Proof. repeat split; reflexivity. Qed.

Section ShareProperties.
Import UvmShare.
Context {VSMBOptions VSMBShare Plan9Share FileInfo : Type}.
Variable host : Host VSMBOptions VSMBShare Plan9Share FileInfo.

Abbreviation Ev := (Event VSMBOptions VSMBShare Plan9Share FileInfo).

Ltac run_share :=
  unfold Share, AddVSMB, VSMBRelease, GetVSMBUvmPath, GuestRequest_, os_Stat,
    AddPlan9, Plan9Release, return_, runDeferred, deferVSMBRelease,
    deferPlan9Release, bind, call, emit, ret;
  cbn beta iota zeta.

(** X6. Part of C1 that holds: when the guest-visible path cannot be
    computed, the share just allocated is released, and the error comes
    back. *)
Lemma Share_releases_when_path_fails
    (uvm : UtilityVM) (hostPath guestPath : string) (readOnly : bool)
    (h : list Ev) (share : VSMBShare) (e : err) :
  OS uvm = "windows" ->
  let options := DefaultVSMBOptions host uvm readOnly in
  let h1 := h ++ [EvAddVSMB hostPath options (Ok share)] in
  answer_AddVSMB host uvm hostPath options h = Ok share ->
  answer_GetVSMBUvmPath host uvm hostPath readOnly h1 = Err e ->
  exists res,
    Share host uvm hostPath guestPath readOnly h =
      (Some e,
       h1 ++ [EvGetVSMBUvmPath hostPath readOnly (Err e)]
          ++ [EvVSMBRelease share res]).
Proof.
  intros Hos options h1 Hadd Hpath. run_share. rewrite Hos. simpl.
  fold options. rewrite Hadd. fold h1. rewrite Hpath. simpl.
  eexists. now rewrite <- app_assoc.
Qed.

(** The other part of C1, in general: when the guest refuses the request,
    [Share] returns the guest's error and makes no further call; the share
    is not handed to Release. *)
Lemma Share_keeps_share_when_guest_fails
    (uvm : UtilityVM) (hostPath guestPath : string) (readOnly : bool)
    (h : list Ev) (share : VSMBShare) (sharePath : string) (e : err) :
  OS uvm = "windows" ->
  let options := DefaultVSMBOptions host uvm readOnly in
  let h1 := h ++ [EvAddVSMB hostPath options (Ok share)] in
  let h2 := h1 ++ [EvGetVSMBUvmPath hostPath readOnly (Ok sharePath)] in
  let req := mappedDirectoryAdd sharePath guestPath readOnly in
  answer_AddVSMB host uvm hostPath options h = Ok share ->
  answer_GetVSMBUvmPath host uvm hostPath readOnly h1 = Ok sharePath ->
  answer_GuestRequest host uvm req h2 = Some e ->
  Share host uvm hostPath guestPath readOnly h =
    (Some e, h2 ++ [EvGuestRequest req (Some e)]).
Proof.
  intros Hos options h1 h2 req Hadd Hpath Hreq. run_share. rewrite Hos. simpl.
  fold options. rewrite Hadd. fold h1. rewrite Hpath. fold h2.
  unfold mappedDirectoryAdd in req. fold req. now rewrite Hreq.
Qed.

(** C3. On a VM that is not Windows, for a host path that exists and is
    not a directory, the one Plan9 share [Share] asks for has the parent
    directory as root, restricted access, and the file's name as the only
    allowed name; for a directory it has the directory itself, no
    restriction and no allowed names. *)
Theorem Share_plan9_parameters
    (uvm : UtilityVM) (hostPath guestPath : string) (readOnly : bool)
    (h : list Ev) (st : FileInfo) :
  String.eqb (OS uvm) "windows" = false ->
  answer_Stat host hostPath h = Ok st ->
  exists new,
    snd (Share host uvm hostPath guestPath readOnly h) = h ++ new
    /\ plan9Allocations new =
         if IsDir host st
         then [(hostPath, guestPath, readOnly, false, [])]
         else [(fst (filepath_Split host hostPath), guestPath, readOnly,
                true, [snd (filepath_Split host hostPath)])].
Proof.
  intros Hos Hst. run_share. rewrite Hos, Hst.
  destruct (IsDir host st); simpl.
  - destruct (answer_AddPlan9 host uvm hostPath guestPath readOnly false []
                (h ++ [EvStat hostPath (Ok st)])) eqn:Hadd; simpl;
      eexists; rewrite <- app_assoc; (split; [reflexivity|]); reflexivity.
  - destruct (filepath_Split host hostPath) as [dir fileName]; simpl.
    destruct (answer_AddPlan9 host uvm dir guestPath readOnly true [fileName]
                (h ++ [EvStat hostPath (Ok st)])) eqn:Hadd; simpl;
      eexists; rewrite <- app_assoc; (split; [reflexivity|]); reflexivity.
Qed.

(** C4, as the code has it. The OS family alone picks the mechanism. On a
    Windows VM [Share] asks for one VSMB share and no Plan9 share, and sends
    the guest the MappedDirectory Add request (guest-visible path, requested
    guest path, read-only flag) exactly when the allocation and the path
    computation both succeeded, and nothing otherwise. On any other VM it
    asks for no VSMB share and sends the guest nothing; it asks for one Plan9
    share when the host path can be examined, and none otherwise. *)
Theorem Share_mechanism_by_OS
    (uvm : UtilityVM) (hostPath guestPath : string) (readOnly : bool)
    (h : list Ev) :
  exists new,
    snd (Share host uvm hostPath guestPath readOnly h) = h ++ new
    /\ if String.eqb (OS uvm) "windows" then
         let options := DefaultVSMBOptions host uvm readOnly in
         plan9Allocations new = []
         /\ vsmbAllocations new = [(hostPath, options)]
         /\ guestRequests new =
              match answer_AddVSMB host uvm hostPath options h with
              | Ok share =>
                  match answer_GetVSMBUvmPath host uvm hostPath readOnly
                          (h ++ [EvAddVSMB hostPath options (Ok share)]) with
                  | Ok sharePath =>
                      [mappedDirectoryAdd sharePath guestPath readOnly]
                  | Err _ => []
                  end
              | Err _ => []
              end
       else
         vsmbAllocations new = []
         /\ guestRequests new = []
         /\ length (plan9Allocations new) =
              match answer_Stat host hostPath h with
              | Ok _ => 1%nat
              | Err _ => 0%nat
              end.
Proof.
  run_share. destruct (String.eqb (OS uvm) "windows") eqn:Hos.
  - cbv zeta.
    destruct (answer_AddVSMB host uvm hostPath
                (DefaultVSMBOptions host uvm readOnly) h) as [share|e] eqn:Hadd.
    + destruct (answer_GetVSMBUvmPath host uvm hostPath readOnly _)
        as [sharePath|e] eqn:Hpath.
      * destruct (answer_GuestRequest host uvm _ _) as [e|] eqn:Hreq; simpl;
          eexists; rewrite <- !app_assoc; (split; [reflexivity|]);
          repeat split; reflexivity.
      * simpl. eexists. rewrite <- !app_assoc. split; [reflexivity|].
        repeat split; reflexivity.
    + simpl. eexists. split; [reflexivity|]. repeat split; reflexivity.
  - destruct (answer_Stat host hostPath h) as [st|e] eqn:Hst.
    + destruct (IsDir host st); simpl.
      * destruct (answer_AddPlan9 host uvm hostPath guestPath readOnly false
                    [] _); simpl;
          eexists; rewrite <- !app_assoc; (split; [reflexivity|]);
          repeat split; reflexivity.
      * destruct (filepath_Split host hostPath) as [dir fileName]; simpl.
        destruct (answer_AddPlan9 host uvm dir guestPath readOnly true
                    [fileName] _); simpl;
          eexists; rewrite <- !app_assoc; (split; [reflexivity|]);
          repeat split; reflexivity.
    + simpl. eexists. split; [reflexivity|]. repeat split; reflexivity.
Qed.

End ShareProperties.

(** C1 fails on the code when the guest refuses the request. On the sample
    host the share for "C:\data" is allocated, its guest-visible path is
    computed, the guest answers the Add request with an error, and [Share]
    returns that error having made no other call: the share is never handed
    to Release. The deferred closure tests the [err] of line 19, which the
    [err] of line 42 does not touch. *)
Theorem Share_guest_refusal_leaves_share_allocated :
  let refusal := errorString "guest refused the mapping" in
  let run := UvmShare.Share Samples.shareHost Samples.windowsVM
               "C:\data" "C:\refused" false [] in
  run =
    (Some refusal,
     [UvmShare.EvAddVSMB "C:\data" false (Ok "C:\data");
      UvmShare.EvGetVSMBUvmPath "C:\data" false (Ok "\\?\VMSMB\VSMB-0\s1");
      UvmShare.EvGuestRequest
        (UvmShare.mappedDirectoryAdd "\\?\VMSMB\VSMB-0\s1" "C:\refused" false)
        (Some refusal)])
  /\ ~ UvmShare.vsmbReleased "C:\data" (snd run).
Proof.
  cbv zeta. split; [reflexivity|].
  intros [res H]. cbn in H.
  repeat (destruct H as [H|H]; [discriminate|]). exact H.
Qed.

Example Share_path_failure_example :
  UvmShare.Share Samples.shareHost Samples.windowsVM
    "C:\unmapped" "C:\mnt" true []
  = (Some (errorString "not found"),
     [UvmShare.EvAddVSMB "C:\unmapped" true (Ok "C:\unmapped");
      UvmShare.EvGetVSMBUvmPath "C:\unmapped" true
        (Err (errorString "not found"));
      UvmShare.EvVSMBRelease "C:\unmapped" None]).
Proof. reflexivity. Qed.

(** C3 on the sample host: the file "C:\data\notes.txt" and the directory
    "C:\data", shared into a Linux VM. *)
Lemma Share_plan9_parameters_witness :
  (exists new,
     snd (UvmShare.Share Samples.shareHost Samples.linuxVM
            "C:\data\notes.txt" "/mnt/notes" true []) = [] ++ new
     /\ UvmShare.plan9Allocations new
        = [("C:\data\", "/mnt/notes", true, true, ["notes.txt"])])
  /\
  (exists new,
     snd (UvmShare.Share Samples.shareHost Samples.linuxVM
            "C:\data" "/mnt/data" false []) = [] ++ new
     /\ UvmShare.plan9Allocations new
        = [("C:\data", "/mnt/data", false, false, [])]).
Proof.
  split.
  - apply (Share_plan9_parameters Samples.shareHost Samples.linuxVM
             "C:\data\notes.txt" "/mnt/notes" true [] false);
      reflexivity.
  - apply (Share_plan9_parameters Samples.shareHost Samples.linuxVM
             "C:\data" "/mnt/data" false [] true);
      reflexivity.
Defined.

(** C4 as stated fails: on a Windows VM whose VSMB allocation fails, [Share]
    sends the guest no request at all (and not exactly one). *)
Lemma Share_sends_nothing_when_allocation_fails :
  UvmShare.OS Samples.windowsVM = "windows"
  /\ fst (UvmShare.Share Samples.shareHost Samples.windowsVM
            "C:\missing" "C:\mnt" false [])
     = Some (errorString "The system cannot find the path specified")
  /\ UvmShare.guestRequests
       (snd (UvmShare.Share Samples.shareHost Samples.windowsVM
               "C:\missing" "C:\mnt" false [])) = []
  /\ length (UvmShare.guestRequests
               (snd (UvmShare.Share Samples.shareHost Samples.windowsVM
                       "C:\missing" "C:\mnt" false []))) <> 1%nat.
Proof. repeat split; try reflexivity. cbn. discriminate. Qed.

(** ** Layer descriptors *)

Section WclayerProperties.
Import Wclayer.
Context {GUID Utf16Ptr : Type}.
Variable host : Host GUID Utf16Ptr.

Lemma layerPathsFrom_ok (paths : list string) :
  forall layers h,
    Forall (converts host) paths ->
    exists ds,
      layerPathsFrom host paths layers h = ((layers ++ ds, None), h)
      /\ Forall2 (describes host) paths ds.
Proof.
  induction paths as [|path rest IH]; intros layers h Hall; simpl.
  - exists []. rewrite app_nil_r. split; [reflexivity | constructor].
  - inversion Hall as [|? ? [[g Hg] [p Hp]] Hrest]; subst.
    unfold folderNameOf in Hg.
    destruct (filepath_Split host path) as [dir folderName] eqn:Hsplit.
    simpl in Hg. rewrite Hg, Hp.
    destruct (IH (layers ++ [{| LayerId := g; Flags := 0; Pathp := p |}]) h
                Hrest) as [ds [Hrun Hds]].
    exists ({| LayerId := g; Flags := 0; Pathp := p |} :: ds).
    rewrite Hrun, <- app_assoc. split; [reflexivity|].
    constructor; [|exact Hds].
    unfold describes, folderNameOf. rewrite Hsplit. simpl. now repeat split.
Qed.

Lemma layerPathsFrom_fails (pre : list string) :
  forall path post e layers h,
    Forall (converts host) pre ->
    failsWith host path e ->
    fst (layerPathsFrom host (pre ++ path :: post) layers h) = ([], Some e).
Proof.
  induction pre as [|q pre IH]; intros path post e layers h Hpre Hfail; simpl.
  - unfold failsWith, folderNameOf in Hfail.
    destruct (filepath_Split host path) as [dir folderName]. simpl in Hfail.
    destruct Hfail as [Hg | [[g Hg] Hp]].
    + now rewrite Hg.
    + now rewrite Hg, Hp.
  - inversion Hpre as [|? ? [[g Hg] [p Hp]] Hrest]; subst.
    unfold folderNameOf in Hg.
    destruct (filepath_Split host q) as [dir folderName]. simpl in Hg.
    rewrite Hg, Hp. now apply IH.
Qed.

(** C8. When no conversion fails, the descriptors come back with a nil
    error, as many as the paths and in their order, descriptor [i] carrying
    the identity [NameToGuid] gives for the final component of path [i],
    flags 0 and the pointer for path [i]. When a conversion fails, the list
    is nil and the error is the one of the first conversion that failed. *)
Theorem layerPathsToDescriptors_correct
    (parentLayerPaths : list string) (h : list Event) :
  (Forall (converts host) parentLayerPaths ->
   exists layers,
     fst (layerPathsToDescriptors host parentLayerPaths h) = (layers, None)
     /\ length layers = length parentLayerPaths
     /\ Forall2 (describes host) parentLayerPaths layers
     /\ forall i path,
          nth_error parentLayerPaths i = Some path ->
          exists d, nth_error layers i = Some d /\ describes host path d)
  /\
  (forall pre path post e,
     parentLayerPaths = pre ++ path :: post ->
     Forall (converts host) pre ->
     failsWith host path e ->
     fst (layerPathsToDescriptors host parentLayerPaths h) = ([], Some e)).
Proof.
  split.
  - intros Hall. unfold layerPathsToDescriptors.
    destruct (layerPathsFrom_ok parentLayerPaths [] h Hall) as [ds [Hrun Hds]].
    exists ds. rewrite Hrun. simpl. split; [reflexivity|].
    split; [symmetry; eapply Forall2_length; eassumption|].
    split; [exact Hds|].
    clear Hrun Hall. induction Hds as [|p d ps ds Hpd Hrest IH];
      intros i path Hi.
    + destruct i; discriminate.
    + destruct i as [|i]; simpl in *.
      * injection Hi as <-. now exists d.
      * now apply IH.
  - intros pre path post e -> Hpre Hfail. unfold layerPathsToDescriptors.
    now apply layerPathsFrom_fails.
Qed.

End WclayerProperties.

Example layerPathsToDescriptors_example :
  fst (Wclayer.layerPathsToDescriptors Samples.layerHost
         ["C:\layers\base"; "C:\layers\app"] [])
  = ([ {| Wclayer.LayerId := "guid:base"; Wclayer.Flags := 0;
          Wclayer.Pathp := "C:\layers\base" |};
       {| Wclayer.LayerId := "guid:app"; Wclayer.Flags := 0;
          Wclayer.Pathp := "C:\layers\app" |} ], None)
  /\ Wclayer.layerPathsToDescriptors Samples.layerHost
       ["C:\layers\base"; "C:\layers\"; "C:\layers\app"] []
     = (([], Some (errorString "The parameter is incorrect")),
        [Wclayer.EvDebugf "Failed to convert name to guid %s"
           ["The parameter is incorrect"]]).
Proof. split; reflexivity. Qed.

(** C8 on the sample host: two layers that convert, and a list whose second
    path has no final component. *)
Lemma layerPathsToDescriptors_correct_witness :
  (exists layers,
     fst (Wclayer.layerPathsToDescriptors Samples.layerHost
            ["C:\layers\base"; "C:\layers\app"] []) = (layers, None)
     /\ length layers = 2%nat)
  /\ fst (Wclayer.layerPathsToDescriptors Samples.layerHost
            ["C:\layers\base"; "C:\layers\"; "C:\layers\app"] [])
     = ([], Some (errorString "The parameter is incorrect")).
Proof.
  split.
  - destruct (proj1 (layerPathsToDescriptors_correct Samples.layerHost
                       ["C:\layers\base"; "C:\layers\app"] []))
      as [layers [Hrun [Hlen _]]].
    + repeat constructor; eexists; reflexivity.
    + exists layers. now split.
  - apply (proj2 (layerPathsToDescriptors_correct Samples.layerHost
                    ["C:\layers\base"; "C:\layers\"; "C:\layers\app"] [])
             ["C:\layers\base"] "C:\layers\" ["C:\layers\app"]).
    + reflexivity.
    + repeat constructor; eexists; reflexivity.
    + left. reflexivity.
Defined.

(** ** The workload container's spec *)

Section Hcsv2Properties.
Import Hcsv2.
Context {WindowsSection SpecRest LinuxRest ResourcesRest : Type}.
Variable host : Host WindowsSection SpecRest LinuxRest ResourcesRest.

Abbreviation Ev := (Event WindowsSection SpecRest LinuxRest ResourcesRest).
Abbreviation Spec' := (Spec WindowsSection SpecRest LinuxRest ResourcesRest).

Local Arguments HasPrefix : simpl never.
Local Arguments TrimPrefix : simpl never.
Local Arguments filepath_Join : simpl never.

Lemma stoppedAt_cons (sbid : string) (m m' : Mount)
    (mounts result : list Mount) :
  rewritten host sbid m m' ->
  stoppedAt host sbid mounts result ->
  stoppedAt host sbid (m :: mounts) (m' :: result).
Proof.
  intros Hm (pre & pre' & m0 & m0' & post & -> & -> & Hpre & Hp & Hcase).
  exists (m :: pre), (m' :: pre'), m0, m0', post.
  repeat split; try assumption. now constructor.
Qed.

(** What the loop of [updateSandboxMounts] does to the mounts. *)
Lemma updateMountsFrom_shape (sbid : string) (mounts : list Mount) :
  forall h : list Ev,
    match fst (fst (updateMountsFrom host sbid mounts h)) with
    | None =>
        Forall2 (rewritten host sbid) mounts
                (snd (fst (updateMountsFrom host sbid mounts h)))
    | Some _ =>
        stoppedAt host sbid mounts (snd (fst (updateMountsFrom host sbid mounts h)))
    end.
Proof.
  induction mounts as [|m rest IH]; intros h; simpl.
  - constructor.
  - destruct (HasPrefix (Source m) sandboxMountPrefix) eqn:Hpre.
    + fold (sandboxSourceOf host sbid m).
      destruct (HasPrefix (sandboxSourceOf host sbid m)
                          (getSandboxMountsDir host sbid)) eqn:Hdir; simpl.
      * assert (rewritten host sbid m
                  (withSource m (sandboxSourceOf host sbid m))) as Hm
          by (unfold rewritten; rewrite Hpre; now split).
        unfold bind, ret.
        destruct (ensureDir host (sandboxSourceOf host sbid m) h)
          as [[e'|] s].
        -- exists [], [], m, (withSource m (sandboxSourceOf host sbid m)),
             rest.
           repeat split; try assumption; [constructor | now right].
        -- specialize (IH s).
           destruct (updateMountsFrom host sbid rest s) as [[e ms] s'].
           simpl in *. destruct e.
           ++ now apply stoppedAt_cons.
           ++ now constructor.
      * exists [], [], m, m, rest.
        repeat split; try assumption; [constructor | now left].
    + unfold bind, ret. specialize (IH h).
      destruct (updateMountsFrom host sbid rest h) as [[e ms] s'].
      simpl in *.
      assert (rewritten host sbid m m) as Hm
        by (unfold rewritten; now rewrite Hpre).
      destruct e.
      * now apply stoppedAt_cons.
      * now constructor.
Qed.

(** X9. What [updateSandboxMounts] guarantees when it returns nil: only the
    mounts change, a mount with the prefix has the joined path as source and
    that path starts, as a string, with the mounts directory, and any other
    mount is as it was. *)
Lemma updateSandboxMounts_nil (sbid : string) (spec : Spec') (h : list Ev) :
  fst (fst (updateSandboxMounts host sbid spec h)) = None ->
  let spec' := snd (fst (updateSandboxMounts host sbid spec h)) in
  spec' = withMounts spec (Mounts spec')
  /\ Forall2 (rewritten host sbid) (Mounts spec) (Mounts spec').
Proof.
  unfold updateSandboxMounts, bind, ret.
  pose proof (updateMountsFrom_shape sbid (Mounts spec) h) as Hshape.
  destruct (updateMountsFrom host sbid (Mounts spec) h) as [[e ms] s].
  simpl in *. intros ->. now split.
Qed.

(** X10. When [updateSandboxMounts] returns an error, it stopped at a mount
    that carries the prefix: the mounts before it are dealt with, the
    mounts after it are untouched. *)
Lemma updateSandboxMounts_error (sbid : string) (spec : Spec') (h : list Ev)
    (e : err) :
  fst (fst (updateSandboxMounts host sbid spec h)) = Some e ->
  stoppedAt host sbid (Mounts spec)
    (Mounts (snd (fst (updateSandboxMounts host sbid spec h)))).
Proof.
  unfold updateSandboxMounts, bind, ret.
  pose proof (updateMountsFrom_shape sbid (Mounts spec) h) as Hshape.
  destruct (updateMountsFrom host sbid (Mounts spec) h) as [[e' ms] s].
  simpl in *. intros ->. exact Hshape.
Qed.

(** C10. A spec with a hostname is refused before anything is done to it:
    the function returns an error and the spec it was given, and beyond its
    tracing span it calls nothing (no directory is looked up or created, no
    device is listed). *)
Theorem setupWorkloadContainerSpec_refuses_hostname
    (sbid id : string) (spec : Spec') (h : list Ev) :
  Hostname spec <> "" ->
  let refusal :=
    errors_Errorf (fmt_Sprintf host)
      "workload container must not change hostname: %s" [Hostname spec] in
  setupWorkloadContainerSpec host sbid id spec h =
    ((Returned (Some refusal), spec),
     h ++ [EvStartSpan "hcsv2::setupWorkloadContainerSpec";
           EvSpanAttributes [("sandboxID", sbid); ("cid", id)];
           EvSetSpanStatus (Some refusal);
           EvSpanEnd]).
Proof.
  intros Hname refusal.
  unfold setupWorkloadContainerSpec, leave, bind, emit, ret.
  apply String.eqb_neq in Hname. rewrite Hname. simpl.
  now rewrite <- !app_assoc.
Qed.

End Hcsv2Properties.

Example updateSandboxMounts_examples :
  let ok := Samples.specWith ""
              [Samples.bindMount "/data" "sandbox://a/../b";
               Samples.bindMount "/tmp" "/var/tmp"] in
  let out := Samples.specWith ""
               [Samples.bindMount "/data" "sandbox://ok";
                Samples.bindMount "/etc" "sandbox://../../../etc";
                Samples.bindMount "/late" "sandbox://late"] in
  fst (Hcsv2.updateSandboxMounts Samples.hcsHost "sb1" ok [])
    = (None,
       Samples.specWith ""
         [Samples.bindMount "/data" "/run/gcs/c/sb1/sandboxMounts/b";
          Samples.bindMount "/tmp" "/var/tmp"])
  /\ fst (Hcsv2.updateSandboxMounts Samples.hcsHost "sb1" out [])
     = (Some (errorString
          (Samples.sprintf
             "mount path %v for mount %v is not within sandbox's mounts dir"
             ["/run/gcs/etc"; "sandbox://../../../etc"])),
        Samples.specWith ""
          [Samples.bindMount "/data" "/run/gcs/c/sb1/sandboxMounts/ok";
           Samples.bindMount "/etc" "sandbox://../../../etc";
           Samples.bindMount "/late" "sandbox://late"]).
Proof. split; reflexivity. Qed.

(** C7 fails on the code for a directory next to the mounts directory whose
    name starts with the same letters. The source
    "sandbox://../sandboxMountsX/secret" joins to
    /run/gcs/c/sb1/sandboxMountsX/secret; the test of line 29 compares
    strings, the joined path starts with /run/gcs/c/sb1/sandboxMounts, and
    so [updateSandboxMounts] rewrites the mount, creates the directory and
    returns nil, although the path is not within the mounts directory. The
    same happens wherever the sandbox directories are rooted. *)
Theorem updateSandboxMounts_accepts_sibling_directory :
  let spec := Samples.specWith ""
                [Samples.bindMount "/data"
                   "sandbox://../sandboxMountsX/secret"] in
  let escaped := "/run/gcs/c/sb1/sandboxMountsX/secret" in
  let escaped' := "/tmp/gcs/cri/sb1/sandboxMountsX/secret" in
  Hcsv2.getSandboxMountsDir Samples.hcsHost "sb1"
    = "/run/gcs/c/sb1/sandboxMounts"
  /\ Hcsv2.updateSandboxMounts Samples.hcsHost "sb1" spec []
     = ((None, Samples.specWith "" [Samples.bindMount "/data" escaped]),
        [Hcsv2.EvStat escaped
           (Some (errorString "stat: no such file or directory"));
         Hcsv2.EvMkdirAll escaped 493 None])
  /\ Hcsv2.withinDir "/run/gcs/c/sb1/sandboxMounts" escaped = false
  /\ Hcsv2.getSandboxMountsDir (Samples.hcsHostAt "/tmp/gcs/cri") "sb1"
     = "/tmp/gcs/cri/sb1/sandboxMounts"
  /\ fst (Hcsv2.updateSandboxMounts (Samples.hcsHostAt "/tmp/gcs/cri") "sb1"
            spec [])
     = (None, Samples.specWith "" [Samples.bindMount "/data" escaped'])
  /\ Hcsv2.withinDir "/tmp/gcs/cri/sb1/sandboxMounts" escaped' = false.
Proof. cbv zeta. repeat split; reflexivity. Qed.

(** C10 on the sample guest: a spec that names a hostname and carries a
    sandbox mount comes back as it was. *)
Lemma setupWorkloadContainerSpec_refuses_hostname_witness :
  let spec := Samples.specWith "web-1"
                [Samples.bindMount "/data" "sandbox://data"] in
  fst (Hcsv2.setupWorkloadContainerSpec Samples.hcsHost "sb1" "c1" spec [])
  = (Returned
       (Some (errorString
          (Samples.sprintf "workload container must not change hostname: %s"
                           ["web-1"]))),
     spec).
Proof.
  cbv zeta.
  rewrite (setupWorkloadContainerSpec_refuses_hostname Samples.hcsHost
             "sb1" "c1"
             (Samples.specWith "web-1"
                [Samples.bindMount "/data" "sandbox://data"]) []).
  - reflexivity.
  - discriminate.
Defined.

Example setupWorkloadContainerSpec_example :
  fst (Hcsv2.setupWorkloadContainerSpec Samples.hcsHost "sb1" "c1"
         (Samples.specWith "" [Samples.bindMount "/data" "sandbox://data"])
         [])
  = (Returned None,
     {| Hcsv2.Hostname := "";
        Hcsv2.Mounts :=
          [Samples.bindMount "/data" "/run/gcs/c/sb1/sandboxMounts/data";
           {| Hcsv2.Destination := "/etc/hostname"; Hcsv2.Type_ := "bind";
              Hcsv2.Source := "/run/gcs/c/sb1/hostname";
              Hcsv2.Options := ["bind"] |};
           {| Hcsv2.Destination := "/etc/hosts"; Hcsv2.Type_ := "bind";
              Hcsv2.Source := "/run/gcs/c/sb1/hosts";
              Hcsv2.Options := ["bind"] |};
           {| Hcsv2.Destination := "/etc/resolv.conf"; Hcsv2.Type_ := "bind";
              Hcsv2.Source := "/run/gcs/c/sb1/resolv.conf";
              Hcsv2.Options := ["bind"] |}];
        Hcsv2.Annotations := fun _ => None;
        Hcsv2.Linux_ := None;
        Hcsv2.Windows := None;
        Hcsv2.spec_rest := tt |}).
Proof. reflexivity. Qed.

(* ================================================================== *)
(** * Further properties of the same code *)
(* ================================================================== *)

(** ** The compute agent, continued *)

Lemma Contains_after (s substr before : string) :
  Contains s substr = true -> Contains (before ++ s) substr = true.
Proof.
  rewrite !Contains_spec. intros [pre [post ->]].
  exists (before ++ pre)%string, post.
  clear. induction before as [|c before IH]; simpl; [reflexivity|].
  now rewrite IH.
Qed.

(** X1. Wrapping does not hide a closed connection: when an error is read
    as a shutdown, so is the same error wrapped by [errors.Wrapf], whatever
    the message put in front of it. *)
Theorem trapClosedConnErr_sees_through_wrapping
    (sprintf : string -> list string -> string) (e : err)
    (format : string) (args : list string) :
  ComputeAgent.trapClosedConnErr (Some e) = None ->
  ComputeAgent.trapClosedConnErr (errors_Wrapf sprintf (Some e) format args)
  = None.
Proof.
  unfold ComputeAgent.trapClosedConnErr, errors_Wrapf.
  destruct (Contains (Error e) "use of closed network connection") eqn:C;
    [intros _ | discriminate].
  assert (Error (withMessage e (sprintf format args))
          = ((sprintf format args ++ ": ") ++ Error e)%string) as ->.
  { simpl. induction (sprintf format args) as [|c s IH]; simpl;
      [reflexivity | now rewrite IH]. }
  now rewrite (Contains_after _ _ _ C).
Qed.

Lemma trapClosedConnErr_sees_through_wrapping_witness :
  ComputeAgent.trapClosedConnErr
    (errors_Wrapf Samples.sprintf
       (Some (errorString "accept: use of closed network connection"))
       "serving %s" ["computeagent-vm1"])
  = None.
Proof.
  apply (trapClosedConnErr_sees_through_wrapping Samples.sprintf
           (errorString "accept: use of closed network connection")).
  reflexivity.
Defined.

Section ComputeAgentMore.
Import ComputeAgent.
Context {HNSEndpoint Listener Server : Type}.
Variable host : Host HNSEndpoint Listener Server.

Lemma calls_snoc_log (h : list (Event HNSEndpoint Listener Server))
    level fields msg :
  calls (h ++ [EvLog level fields msg]) = calls h.
Proof. unfold calls. rewrite filter_app. simpl. apply app_nil_r. Qed.

Lemma calls_snoc (h : list (Event HNSEndpoint Listener Server)) ev :
  isLog _ _ _ ev = false -> calls (h ++ [ev]) = calls h ++ [ev].
Proof. intros H. unfold calls. rewrite filter_app. simpl. now rewrite H. Qed.

(** X2. [DeleteNIC] and the endpoint lookup: when the name does not
    resolve, the answer is a nil response with the lookup error wrapped with
    the endpoint name, and the VM is asked to remove nothing; when it
    resolves and the remove succeeds, the answer is the empty response with a
    nil error, after one remove keyed by the endpoint's namespace ID and the
    endpoint. Neither way is anything attached. *)
Theorem DeleteNIC_resolution_and_remove
    (ca : computeAgent) (req : DeleteNICInternalRequest)
    (h : list (Event HNSEndpoint Listener Server)) :
  let name := del_EndpointName req in
  (forall e,
     answer_GetHNSEndpointByName host name (calls h) = Err e ->
     exists new,
       DeleteNIC host ca req h =
         (Returned
            (None,
             Some (withMessage e
                     (fmt_Sprintf host "failed to get endpoint with name %q"
                                  [name]))),
          h ++ new)
       /\ removeCalls new = [] /\ attachCalls new = [])
  /\
  (forall endpoint ns,
     answer_GetHNSEndpointByName host name (calls h) = Ok endpoint ->
     endpoint_Namespace host endpoint = Some ns ->
     answer_RemoveEndpointFromNS host (uvm ca) (ID ns) endpoint
       (calls h ++ [EvGetHNSEndpointByName name (Ok endpoint)]) = None ->
     exists new,
       DeleteNIC host ca req h =
         (Returned (Some mkDeleteNICInternalResponse, None), h ++ new)
       /\ removeCalls new = [(uvm ca, ID ns, endpoint)]
       /\ attachCalls new = []).
Proof.
  intros name; split.
  - intros e He.
    unfold DeleteNIC, log_Info, hns_GetHNSEndpointByName, callOut, bind, call,
      emit, ret. cbn beta iota zeta.
    rewrite calls_snoc_log. fold name. rewrite He.
    eexists. rewrite <- app_assoc. split; [reflexivity|]. now split.
  - intros endpoint ns Hep Hns Hrm.
    unfold DeleteNIC, log_Info, hns_GetHNSEndpointByName,
      RemoveEndpointFromNS, callOut, bind, call, emit, ret.
    cbn beta iota zeta.
    rewrite calls_snoc_log. fold name. rewrite Hep, Hns.
    rewrite calls_snoc by reflexivity. rewrite calls_snoc_log. rewrite Hrm.
    eexists. rewrite <- !app_assoc. split; [reflexivity|]. now split.
Qed.

(** X3. [setupAndServe] starts a serving task exactly when it returns nil,
    and then one task, on the listener it bound and the server it registered
    for the VM. A failure to listen comes back wrapped with the address; a
    failure to make the server comes back as it is. On no path does
    [setupAndServe] itself close the listener. *)
Theorem setupAndServe_outcomes
    (caAddr : string) (vm : UtilityVM)
    (h : list (Event HNSEndpoint Listener Server)) :
  exists new,
    snd (setupAndServe host caAddr vm h) = h ++ new
    /\ closed new = []
    /\ match fst (setupAndServe host caAddr vm h) with
       | None =>
           exists l s,
             answer_ListenPipe host caAddr (calls h) = Ok l
             /\ answer_NewServer host
                  (calls h ++ [EvListenPipe caAddr (Ok l)]) = Ok s
             /\ started new = [(s, l)]
             /\ registered new = [(s, {| uvm := vm |})]
       | Some e =>
           started new = [] /\ registered new = []
           /\ ((exists e0,
                  answer_ListenPipe host caAddr (calls h) = Err e0
                  /\ e = withMessage e0
                           (fmt_Sprintf host "failed to listen on %s"
                                        [caAddr]))
               \/ (exists l,
                     answer_ListenPipe host caAddr (calls h) = Ok l
                     /\ answer_NewServer host
                          (calls h ++ [EvListenPipe caAddr (Ok l)]) = Err e))
       end.
Proof.
  unfold setupAndServe, log_Info, callOut, bind, call, emit, ret.
  cbn beta iota zeta.
  destruct (answer_ListenPipe host caAddr (calls h)) as [l|e0] eqn:Hl.
  - rewrite calls_snoc by reflexivity.
    destruct (answer_NewServer host _) as [s|e] eqn:Hs; simpl.
    + eexists. rewrite <- !app_assoc. split; [reflexivity|].
      split; [reflexivity|]. exists l, s. now repeat split.
    + eexists. rewrite <- !app_assoc. split; [reflexivity|].
      split; [reflexivity|]. repeat split. right. now exists l.
  - simpl. eexists. split; [reflexivity|]. split; [reflexivity|].
    repeat split. left. now exists e0.
Qed.

End ComputeAgentMore.

Lemma DeleteNIC_resolution_and_remove_witness :
  (exists new,
     ComputeAgent.DeleteNIC Samples.agentHost Samples.agent
       (Samples.delReq "eth-none" "nic-1") []
     = (Returned
          (None,
           Some (withMessage (errorString "Endpoint not found")
                   (Samples.sprintf "failed to get endpoint with name %q"
                                    ["eth-none"]))),
        [] ++ new)
     /\ ComputeAgent.removeCalls new = []
     /\ ComputeAgent.attachCalls new = [])
  /\
  (exists new,
     ComputeAgent.DeleteNIC Samples.agentHost Samples.agent
       (Samples.delReq "eth-test" "nic-1") []
     = (Returned (Some ComputeAgent.mkDeleteNICInternalResponse, None),
        [] ++ new)
     /\ ComputeAgent.removeCalls new
        = [(Samples.windowsVM, "ns-1",
            ("eth-test", Some {| ComputeAgent.ID := "ns-1" |}))]
     /\ ComputeAgent.attachCalls new = []).
Proof.
  split.
  - apply (proj1 (DeleteNIC_resolution_and_remove Samples.agentHost
                    Samples.agent (Samples.delReq "eth-none" "nic-1") [])).
    reflexivity.
  - apply (proj2 (DeleteNIC_resolution_and_remove Samples.agentHost
                    Samples.agent (Samples.delReq "eth-test" "nic-1") [])
             ("eth-test", Some {| ComputeAgent.ID := "ns-1" |})
             {| ComputeAgent.ID := "ns-1" |});
      reflexivity.
Defined.

Example setupAndServe_example :
  ComputeAgent.setupAndServe Samples.agentHost "computeagent-vm1"
    Samples.windowsVM []
  = (None,
     [ComputeAgent.EvListenPipe "computeagent-vm1" (Ok 7%nat);
      ComputeAgent.EvNewServer (Ok 9%nat);
      ComputeAgent.EvRegisterComputeAgentService 9%nat Samples.agent;
      ComputeAgent.EvLog ComputeAgent.Info [("address", "computeagent-vm1")]
        "serving compute agent";
      ComputeAgent.EvGo 9%nat 7%nat]).
Proof. reflexivity. Qed.

(** ** Share, continued *)

Section ShareMore.
Import UvmShare.
Context {VSMBOptions VSMBShare Plan9Share FileInfo : Type}.
Variable host : Host VSMBOptions VSMBShare Plan9Share FileInfo.

Ltac run_share' :=
  unfold Share, AddVSMB, VSMBRelease, GetVSMBUvmPath, GuestRequest_, os_Stat,
    AddPlan9, Plan9Release, return_, runDeferred, deferVSMBRelease,
    deferPlan9Release, bind, call, emit, ret;
  cbn beta iota zeta.

(** X4. [Share] returns nil exactly when every step of its branch
    succeeded: on a Windows VM the allocation, the path computation and the
    guest request; on any other VM the look at the host path and the Plan9
    allocation made with the parameters that look decides. *)
Theorem Share_nil_iff_every_step_succeeds
    (uvm : UtilityVM) (hostPath guestPath : string) (readOnly : bool)
    (h : list (Event VSMBOptions VSMBShare Plan9Share FileInfo)) :
  fst (Share host uvm hostPath guestPath readOnly h) = None <->
  if String.eqb (OS uvm) "windows" then
    let options := DefaultVSMBOptions host uvm readOnly in
    exists share sharePath,
      answer_AddVSMB host uvm hostPath options h = Ok share
      /\ answer_GetVSMBUvmPath host uvm hostPath readOnly
           (h ++ [EvAddVSMB hostPath options (Ok share)]) = Ok sharePath
      /\ answer_GuestRequest host uvm
           (mappedDirectoryAdd sharePath guestPath readOnly)
           ((h ++ [EvAddVSMB hostPath options (Ok share)])
              ++ [EvGetVSMBUvmPath hostPath readOnly (Ok sharePath)]) = None
  else
    exists st share,
      answer_Stat host hostPath h = Ok st
      /\ (if IsDir host st
          then answer_AddPlan9 host uvm hostPath guestPath readOnly false []
                 (h ++ [EvStat hostPath (Ok st)])
          else answer_AddPlan9 host uvm (fst (filepath_Split host hostPath))
                 guestPath readOnly true [snd (filepath_Split host hostPath)]
                 (h ++ [EvStat hostPath (Ok st)]))
         = Ok share.
Proof.
  run_share'. destruct (String.eqb (OS uvm) "windows").
  - cbv zeta.
    destruct (answer_AddVSMB host uvm hostPath
                (DefaultVSMBOptions host uvm readOnly) h) as [share|e] eqn:Ha.
    + destruct (answer_GetVSMBUvmPath host uvm hostPath readOnly _)
        as [sharePath|e] eqn:Hp.
      * fold (mappedDirectoryAdd sharePath guestPath readOnly).
        destruct (answer_GuestRequest host uvm _ _) as [e|] eqn:Hg; simpl.
        -- split; [discriminate|].
           intros (s' & p' & Hs & Hp' & Hg'). injection Hs as <-.
           rewrite Hp in Hp'. injection Hp' as <-. congruence.
        -- split; [intros _ | reflexivity]. now exists share, sharePath.
      * simpl. split; [discriminate|].
        intros (s' & p' & Hs & Hp' & _). injection Hs as <-. congruence.
    + simpl. split; [discriminate|]. intros (s' & p' & Hs & _). discriminate.
  - destruct (answer_Stat host hostPath h) as [st|e] eqn:Hst.
    + destruct (IsDir host st) eqn:Hd; simpl.
      * destruct (answer_AddPlan9 host uvm hostPath guestPath readOnly false
                    [] _) as [share|e] eqn:Ha; simpl.
        -- split; [intros _ | reflexivity]. exists st, share.
           split; [reflexivity|]. now rewrite Hd.
        -- split; [discriminate|]. intros (st' & s' & Hs & Hx).
           injection Hs as <-. rewrite Hd in Hx. congruence.
      * destruct (filepath_Split host hostPath) as [dir fileName]; simpl.
        destruct (answer_AddPlan9 host uvm dir guestPath readOnly true
                    [fileName] _) as [share|e] eqn:Ha; simpl.
        -- split; [intros _ | reflexivity]. exists st, share.
           split; [reflexivity|]. now rewrite Hd.
        -- split; [discriminate|]. intros (st' & s' & Hs & Hx).
           injection Hs as <-. rewrite Hd in Hx. congruence.
    + simpl. split; [discriminate|]. intros (st' & s' & Hs & _). discriminate.
Qed.

(** X5. What [Share] hands to Release: never a Plan9 share, at most one
    VSMB share, and then the one its own [AddVSMB] returned in this call;
    nothing at all when it returns nil, so a share that was set up stays. *)
Theorem Share_releases_only_its_own
    (uvm : UtilityVM) (hostPath guestPath : string) (readOnly : bool)
    (h : list (Event VSMBOptions VSMBShare Plan9Share FileInfo)) :
  exists new,
    snd (Share host uvm hostPath guestPath readOnly h) = h ++ new
    /\ plan9Releases new = []
    /\ (length (vsmbReleases new) <= 1)%nat
    /\ (forall share,
          In share (vsmbReleases new) ->
          answer_AddVSMB host uvm hostPath
            (DefaultVSMBOptions host uvm readOnly) h = Ok share)
    /\ (fst (Share host uvm hostPath guestPath readOnly h) = None ->
        vsmbReleases new = []).
Proof.
  run_share'. destruct (String.eqb (OS uvm) "windows").
  - destruct (answer_AddVSMB host uvm hostPath
                (DefaultVSMBOptions host uvm readOnly) h) as [share|e] eqn:Ha.
    + destruct (answer_GetVSMBUvmPath host uvm hostPath readOnly _)
        as [sharePath|e] eqn:Hp.
      * destruct (answer_GuestRequest host uvm _ _) as [e|] eqn:Hg; simpl;
          eexists; rewrite <- !app_assoc; (split; [reflexivity|]);
          simpl; repeat split; auto; intros s' [].
      * simpl. eexists. rewrite <- !app_assoc. split; [reflexivity|].
        simpl. repeat split; auto.
        -- intros s' [<- | []]. reflexivity.
        -- discriminate.
    + simpl. eexists. split; [reflexivity|].
      simpl. repeat split; auto. intros s' [].
  - destruct (answer_Stat host hostPath h) as [st|e] eqn:Hst.
    + destruct (IsDir host st); simpl.
      * destruct (answer_AddPlan9 host uvm hostPath guestPath readOnly false
                    [] _); simpl;
          eexists; rewrite <- !app_assoc; (split; [reflexivity|]);
          simpl; repeat split; auto; intros s' [].
      * destruct (filepath_Split host hostPath) as [dir fileName]; simpl.
        destruct (answer_AddPlan9 host uvm dir guestPath readOnly true
                    [fileName] _); simpl;
          eexists; rewrite <- !app_assoc; (split; [reflexivity|]);
          simpl; repeat split; auto; intros s' [].
    + simpl. eexists. split; [reflexivity|].
      simpl. repeat split; auto. intros s' [].
Qed.

End ShareMore.

(** The failure of the path computation on the sample host: the share for
    "C:\unmapped" is released before the error comes back. *)
Lemma Share_releases_when_path_fails_witness :
  exists res,
    UvmShare.Share Samples.shareHost Samples.windowsVM
      "C:\unmapped" "C:\mnt" true []
    = (Some (errorString "not found"),
       ([] ++ [UvmShare.EvAddVSMB "C:\unmapped" true (Ok "C:\unmapped")])
         ++ [UvmShare.EvGetVSMBUvmPath "C:\unmapped" true
               (Err (errorString "not found"))]
         ++ [UvmShare.EvVSMBRelease "C:\unmapped" res]).
Proof.
  apply (Share_releases_when_path_fails Samples.shareHost Samples.windowsVM
           "C:\unmapped" "C:\mnt" true [] "C:\unmapped"
           (errorString "not found"));
    reflexivity.
Defined.

(** ** Layer descriptors, continued *)

Section WclayerMore.
Import Wclayer.
Context {GUID Utf16Ptr : Type}.
Variable host : Host GUID Utf16Ptr.

(** The slice built so far only ever sits in front of what the rest of the
    loop adds, and is dropped when the loop fails. *)
Lemma layerPathsFrom_acc (paths : list string) :
  forall layers h,
    fst (layerPathsFrom host paths layers h) =
      match fst (layerPathsFrom host paths [] []) with
      | (ds, None) => (layers ++ ds, None)
      | (_, Some e) => ([], Some e)
      end.
Proof.
  induction paths as [|path rest IH]; intros layers h; simpl.
  - now rewrite app_nil_r.
  - destruct (filepath_Split host path) as [dir folderName].
    destruct (NameToGuid host folderName) as [g|e]; [|reflexivity].
    destruct (UTF16PtrFromString host path) as [p|e]; [|reflexivity].
    rewrite (IH (layers ++ _) h), (IH [_] []).
    destruct (fst (layerPathsFrom host rest [] [])) as [ds [e|]];
      [reflexivity|].
    now rewrite <- app_assoc.
Qed.

Lemma layerPathsFrom_app (a : list string) :
  forall b layers h,
    fst (layerPathsFrom host (a ++ b) layers h) =
      match fst (layerPathsFrom host a layers h) with
      | (la, None) => fst (layerPathsFrom host b la h)
      | (l, Some e) => (l, Some e)
      end.
Proof.
  induction a as [|path rest IH]; intros b layers h; simpl.
  - reflexivity.
  - destruct (filepath_Split host path) as [dir folderName].
    destruct (NameToGuid host folderName) as [g|e]; [|reflexivity].
    destruct (UTF16PtrFromString host path) as [p|e]; [|reflexivity].
    apply IH.
Qed.

(** X7. Descriptors of a list put together from two: when both halves
    convert, the descriptors are those of the first half followed by those
    of the second; when either half fails, the whole fails with the error of
    the first half that does. *)
Theorem layerPathsToDescriptors_app
    (a b : list string) (h : list Event) :
  fst (layerPathsToDescriptors host (a ++ b) h) =
    match fst (layerPathsToDescriptors host a h) with
    | (la, None) =>
        match fst (layerPathsToDescriptors host b h) with
        | (lb, None) => (la ++ lb, None)
        | (_, Some e) => ([], Some e)
        end
    | (_, Some e) => ([], Some e)
    end.
Proof.
  unfold layerPathsToDescriptors.
  rewrite layerPathsFrom_app.
  rewrite (layerPathsFrom_acc a [] h), (layerPathsFrom_acc b [] h).
  destruct (fst (layerPathsFrom host a [] [])) as [la [e|]]; [reflexivity|].
  simpl. rewrite (layerPathsFrom_acc b la h).
  now destruct (fst (layerPathsFrom host b [] [])) as [lb [e|]].
Qed.

Lemma layerPathsFrom_log (paths : list string) :
  forall layers h,
    exists new,
      snd (layerPathsFrom host paths layers h) = h ++ new
      /\ match snd (fst (layerPathsFrom host paths layers h)) with
         | None => new = []
         | Some e =>
             fst (fst (layerPathsFrom host paths layers h)) = []
             /\ exists format, new = [EvDebugf format [Error e]]
         end.
Proof.
  induction paths as [|path rest IH]; intros layers h; simpl.
  - exists []. now rewrite app_nil_r.
  - destruct (filepath_Split host path) as [dir folderName].
    destruct (NameToGuid host folderName) as [g|e].
    + destruct (UTF16PtrFromString host path) as [p|e]; [apply IH|].
      unfold bind, emit, ret. simpl. eexists. split; [reflexivity|].
      split; [reflexivity|]. eexists; reflexivity.
    + unfold bind, emit, ret. simpl. eexists. split; [reflexivity|].
      split; [reflexivity|]. eexists; reflexivity.
Qed.

(** X8. The function writes to the debug log exactly when it fails: one
    line, carrying the text of the error it returns, beside a nil list; a
    conversion of all paths writes nothing. *)
Theorem layerPathsToDescriptors_log
    (parentLayerPaths : list string) (h : list Event) :
  exists new,
    snd (layerPathsToDescriptors host parentLayerPaths h) = h ++ new
    /\ match snd (fst (layerPathsToDescriptors host parentLayerPaths h)) with
       | None => new = []
       | Some e =>
           fst (fst (layerPathsToDescriptors host parentLayerPaths h)) = []
           /\ exists format, new = [EvDebugf format [Error e]]
       end.
Proof. apply layerPathsFrom_log. Qed.

End WclayerMore.

(** ** The workload container's spec, continued *)

Section Hcsv2More.
Import Hcsv2.
Context {WindowsSection SpecRest LinuxRest ResourcesRest : Type}.
Variable host : Host WindowsSection SpecRest LinuxRest ResourcesRest.

Local Arguments HasPrefix : simpl never.
Local Arguments TrimPrefix : simpl never.
Local Arguments filepath_Join : simpl never.

Lemma statCalls_app
    (h1 h2 : list (Event WindowsSection SpecRest LinuxRest ResourcesRest)) :
  statCalls (h1 ++ h2) = statCalls h1 ++ statCalls h2.
Proof. apply flat_map_app. Qed.

Lemma mkdirCalls_app
    (h1 h2 : list (Event WindowsSection SpecRest LinuxRest ResourcesRest)) :
  mkdirCalls (h1 ++ h2) = mkdirCalls h1 ++ mkdirCalls h2.
Proof. apply flat_map_app. Qed.

(** Lines 35-40 look the path up once and create at most that path. *)
Lemma ensureDir_calls (path : string)
    (h : list (Event WindowsSection SpecRest LinuxRest ResourcesRest)) :
  exists new,
    snd (ensureDir host path h) = h ++ new
    /\ statCalls new = [path]
    /\ (mkdirCalls new = [] \/ mkdirCalls new = [(path, 493%Z)]).
Proof.
  unfold ensureDir, bind, call, ret. cbn beta iota zeta.
  destruct (os_IsNotExist host _); simpl.
  - eexists. rewrite <- app_assoc. split; [reflexivity|]. split; auto.
  - eexists. split; [reflexivity|]. split; auto.
Qed.

Lemma updateMountsFrom_calls (sbid : string) (mounts : list Mount) :
  forall h : list (Event WindowsSection SpecRest LinuxRest ResourcesRest),
    exists new,
      snd (updateMountsFrom host sbid mounts h) = h ++ new
      /\ Forall (fun path =>
                   HasPrefix path (getSandboxMountsDir host sbid) = true
                   /\ exists m,
                        In m mounts
                        /\ HasPrefix (Source m) sandboxMountPrefix = true
                        /\ path = sandboxSourceOf host sbid m)
                (statCalls new)
      /\ Forall (fun c => In (fst c) (statCalls new) /\ snd c = 493%Z)
                (mkdirCalls new).
Proof.
  assert (Hweak :
    forall (m : Mount) (rest : list Mount) (paths : list string),
      Forall (fun path =>
                HasPrefix path (getSandboxMountsDir host sbid) = true
                /\ exists m0,
                     In m0 rest
                     /\ HasPrefix (Source m0) sandboxMountPrefix = true
                     /\ path = sandboxSourceOf host sbid m0) paths ->
      Forall (fun path =>
                HasPrefix path (getSandboxMountsDir host sbid) = true
                /\ exists m0,
                     In m0 (m :: rest)
                     /\ HasPrefix (Source m0) sandboxMountPrefix = true
                     /\ path = sandboxSourceOf host sbid m0) paths).
  { intros m rest paths H. eapply Forall_impl; [|exact H].
    intros path [Hp (m0 & Hin & Hpre & Heq)]. split; [exact Hp|].
    exists m0. repeat split; auto. now right. }
  induction mounts as [|m rest IH]; intros h; simpl.
  - exists []. rewrite app_nil_r. repeat split; constructor.
  - destruct (HasPrefix (Source m) sandboxMountPrefix) eqn:Hpre.
    + fold (sandboxSourceOf host sbid m).
      destruct (HasPrefix (sandboxSourceOf host sbid m)
                          (getSandboxMountsDir host sbid)) eqn:Hdir; simpl.
      * unfold bind, ret.
        destruct (ensureDir_calls (sandboxSourceOf host sbid m) h)
          as (new1 & Hh1 & Hstat1 & Hmk1).
        destruct (ensureDir host (sandboxSourceOf host sbid m) h)
          as [e2 h1]. simpl in Hh1. subst h1.
        assert (Forall (fun path =>
                   HasPrefix path (getSandboxMountsDir host sbid) = true
                   /\ exists m0,
                        In m0 (m :: rest)
                        /\ HasPrefix (Source m0) sandboxMountPrefix = true
                        /\ path = sandboxSourceOf host sbid m0)
                  (statCalls new1)) as Hs1.
        { rewrite Hstat1. constructor; [|constructor].
          split; [exact Hdir|]. exists m. repeat split; auto. now left. }
        assert (Forall (fun c => In (fst c) (statCalls new1)
                                 /\ snd c = 493%Z) (mkdirCalls new1)) as Hm1.
        { destruct Hmk1 as [-> | ->]; [constructor|].
          constructor; [|constructor]. rewrite Hstat1. simpl. auto. }
        destruct e2 as [e'|].
        -- simpl. exists new1. repeat split; assumption.
        -- destruct (IH (h ++ new1)) as (new2 & Hh2 & Hs2 & Hm2).
           destruct (updateMountsFrom host sbid rest (h ++ new1))
             as [[e ms] h2]. simpl in *. subst h2.
           exists (new1 ++ new2). rewrite app_assoc. split; [reflexivity|].
           rewrite statCalls_app, mkdirCalls_app. split.
           ++ apply Forall_app. split; [exact Hs1 | now apply Hweak].
           ++ apply Forall_app. split.
              ** eapply Forall_impl; [|exact Hm1]. intros c [Hin Hperm].
                 split; [apply in_or_app; now left | exact Hperm].
              ** eapply Forall_impl; [|exact Hm2]. intros c [Hin Hperm].
                 split; [apply in_or_app; now right | exact Hperm].
      * exists []. rewrite app_nil_r. repeat split; constructor.
    + unfold bind, ret.
      destruct (IH h) as (new & Hh & Hs & Hm).
      destruct (updateMountsFrom host sbid rest h) as [[e ms] h']. simpl in *.
      exists new. repeat split; auto.
Qed.

(** X11. [updateSandboxMounts] looks up and creates nothing but the joined
    paths of mounts that carry the prefix, and those only after the test of
    line 29: each path it hands to [os.Stat] starts with the sandbox mounts
    directory, and each directory it creates was looked up before, with
    mode 0755. *)
Theorem updateSandboxMounts_touches_only_checked_paths
    (sbid : string)
    (spec : Spec WindowsSection SpecRest LinuxRest ResourcesRest)
    (h : list (Event WindowsSection SpecRest LinuxRest ResourcesRest)) :
  exists new,
    snd (updateSandboxMounts host sbid spec h) = h ++ new
    /\ Forall (fun path =>
                 HasPrefix path (getSandboxMountsDir host sbid) = true
                 /\ exists m,
                      In m (Mounts spec)
                      /\ HasPrefix (Source m) sandboxMountPrefix = true
                      /\ path = sandboxSourceOf host sbid m)
              (statCalls new)
    /\ Forall (fun c => In (fst c) (statCalls new) /\ snd c = 493%Z)
              (mkdirCalls new).
Proof.
  unfold updateSandboxMounts, bind, ret.
  destruct (updateMountsFrom_calls sbid (Mounts spec) h) as (new & Hh & H).
  destruct (updateMountsFrom host sbid (Mounts spec) h) as [[e ms] h'].
  simpl in *. now exists new.
Qed.

Lemma updateMountsFrom_noop (sbid : string) (mounts : list Mount) :
  forall h : list (Event WindowsSection SpecRest LinuxRest ResourcesRest),
    Forall (fun m => HasPrefix (Source m) sandboxMountPrefix = false) mounts ->
    updateMountsFrom host sbid mounts h = ((None, mounts), h).
Proof.
  induction mounts as [|m rest IH]; intros h Hall; simpl; [reflexivity|].
  inversion Hall as [|? ? Hm Hrest]; subst. rewrite Hm.
  unfold bind, ret. now rewrite (IH h Hrest).
Qed.

Lemma withMounts_same
    (spec : Spec WindowsSection SpecRest LinuxRest ResourcesRest) :
  withMounts spec (Mounts spec) = spec.
Proof. now destruct spec. Qed.

(** X12. A spec none of whose mounts carries the prefix goes through
    [updateSandboxMounts] untouched: nil comes back, the spec is the one
    given, and the file system is not consulted. *)
Theorem updateSandboxMounts_without_prefix
    (sbid : string)
    (spec : Spec WindowsSection SpecRest LinuxRest ResourcesRest)
    (h : list (Event WindowsSection SpecRest LinuxRest ResourcesRest)) :
  Forall (fun m => HasPrefix (Source m) sandboxMountPrefix = false)
         (Mounts spec) ->
  updateSandboxMounts host sbid spec h = ((None, spec), h).
Proof.
  intros Hall. unfold updateSandboxMounts, bind, ret.
  rewrite (updateMountsFrom_noop sbid (Mounts spec) h Hall). simpl.
  now rewrite withMounts_same.
Qed.

Lemma absolute_has_no_scheme (dir path : string) :
  HasPrefix dir "/" = true ->
  HasPrefix path dir = true ->
  HasPrefix path sandboxMountPrefix = false.
Proof.
  intros Hdir Hpath.
  apply HasPrefix_spec in Hdir. destruct Hdir as [d' ->].
  apply HasPrefix_spec in Hpath. destruct Hpath as [rest ->].
  reflexivity.
Qed.

(** X13. With the sandbox mounts directory an absolute path, a second run
    of [updateSandboxMounts] over the spec a first run returned with nil
    changes nothing and consults nothing: what the first run rewrote no
    longer carries the prefix. *)
Theorem updateSandboxMounts_second_run
    (sbid : string)
    (spec : Spec WindowsSection SpecRest LinuxRest ResourcesRest)
    (h h' : list (Event WindowsSection SpecRest LinuxRest ResourcesRest)) :
  HasPrefix (getSandboxMountsDir host sbid) "/" = true ->
  fst (fst (updateSandboxMounts host sbid spec h)) = None ->
  let spec' := snd (fst (updateSandboxMounts host sbid spec h)) in
  updateSandboxMounts host sbid spec' h' = ((None, spec'), h').
Proof.
  intros Habs Hnil spec'.
  assert (Forall (fun m => HasPrefix (Source m) sandboxMountPrefix = false)
                 (Mounts spec')) as Hall.
  { subst spec'. unfold updateSandboxMounts, bind, ret in *.
    pose proof (updateMountsFrom_shape host sbid (Mounts spec) h) as Hshape.
    destruct (updateMountsFrom host sbid (Mounts spec) h) as [[e ms] s].
    simpl in *. subst e.
    induction Hshape as [|m m' ms0 ms' Hm Hrest IH]; constructor; auto.
    unfold rewritten in Hm.
    destruct (HasPrefix (Source m) sandboxMountPrefix) eqn:Hpre.
    - destruct Hm as [_ Hdir].
      eapply absolute_has_no_scheme; eassumption.
    - now subst m'. }
  unfold updateSandboxMounts, bind, ret.
  rewrite (updateMountsFrom_noop sbid (Mounts spec') h' Hall). simpl.
  now rewrite withMounts_same.
Qed.

End Hcsv2More.

Section Hcsv2Setup.
Import Hcsv2.
Context {WindowsSection SpecRest LinuxRest ResourcesRest : Type}.
Variable host : Host WindowsSection SpecRest LinuxRest ResourcesRest.

Local Arguments HasPrefix : simpl never.
Local Arguments TrimPrefix : simpl never.
Local Arguments filepath_Join : simpl never.
Local Arguments String.eqb : simpl never.

Abbreviation Spec_ := (Spec WindowsSection SpecRest LinuxRest ResourcesRest).
Abbreviation Event_ :=
  (Event WindowsSection SpecRest LinuxRest ResourcesRest).

Lemma leave_eq (r : outcome error) (spec : Spec_) (h : list Event_) :
  fst (leave r spec h) = (r, spec).
Proof. reflexivity. Qed.

Lemma finishSpec_outcome (spec : Spec_) (h : list Event_) :
  match fst (fst (finishSpec host spec h)) with
  | Returned None => Windows (snd (fst (finishSpec host spec h))) = None
  | Returned (Some _) => True
  | Panicked => False
  end.
Proof.
  unfold finishSpec.
  destruct (Annotations spec "io.microsoft.lcow.userstr") as [userstr|].
  - unfold bind, call. cbn beta iota zeta.
    destruct (fst (answer_setUserStr host spec userstr h)) as [e|];
      rewrite leave_eq; simpl; auto.
  - rewrite leave_eq. reflexivity.
Qed.

Lemma finishSpec_without_userstr (spec : Spec_) (h : list Event_) :
  Annotations spec "io.microsoft.lcow.userstr" = None ->
  fst (finishSpec host spec h) = (Returned None, withoutWindows spec).
Proof. intros H. unfold finishSpec. now rewrite H. Qed.

Lemma addBindMount_frame (sbid destination source : string) (spec : Spec_) :
  In (destination, source)
     [("/etc/hostname", getSandboxHostnamePath host sbid);
      ("/etc/hosts", getSandboxHostsPath host sbid);
      ("/etc/resolv.conf", getSandboxResolvPath host sbid)] ->
  sameIdentity spec (addBindMount host destination source spec)
  /\ Linux_ (addBindMount host destination source spec) = Linux_ spec
  /\ Windows (addBindMount host destination source spec) = Windows spec
  /\ exists added,
       Mounts (addBindMount host destination source spec)
         = Mounts spec ++ added
       /\ (length added <= 1)%nat
       /\ Forall (injected host sbid) added.
Proof.
  intros Hin. unfold addBindMount, sameIdentity.
  destruct (isInMounts host destination (Mounts spec)); simpl.
  - repeat split. exists []. rewrite app_nil_r. repeat split; auto.
  - repeat split. eexists. split; [reflexivity|]. split; [simpl; auto|].
    constructor; [|constructor]. unfold injected. simpl.
    split; [reflexivity|]. split; [|exact Hin].
    destruct (isRootReadonly host spec); auto.
Qed.

(** Lines 64-104 as a whole. *)
Lemma bindMounts_frame (sbid : string) (spec : Spec_) :
  let spec' :=
    addBindMount host "/etc/resolv.conf" (getSandboxResolvPath host sbid)
      (addBindMount host "/etc/hosts" (getSandboxHostsPath host sbid)
         (addBindMount host "/etc/hostname"
                       (getSandboxHostnamePath host sbid) spec)) in
  sameIdentity spec spec'
  /\ Linux_ spec' = Linux_ spec
  /\ Windows spec' = Windows spec
  /\ exists added,
       Mounts spec' = Mounts spec ++ added
       /\ (length added <= 3)%nat
       /\ Forall (injected host sbid) added.
Proof.
  intros spec'. subst spec'.
  set (s1 := addBindMount host "/etc/hostname"
               (getSandboxHostnamePath host sbid) spec).
  set (s2 := addBindMount host "/etc/hosts"
               (getSandboxHostsPath host sbid) s1).
  destruct (addBindMount_frame sbid "/etc/hostname"
              (getSandboxHostnamePath host sbid) spec)
    as ((Ha1 & Hb1 & Hc1) & Hl1 & Hw1 & a1 & Hm1 & Hn1 & Hf1);
    [simpl; auto|].
  destruct (addBindMount_frame sbid "/etc/hosts"
              (getSandboxHostsPath host sbid) s1)
    as ((Ha2 & Hb2 & Hc2) & Hl2 & Hw2 & a2 & Hm2 & Hn2 & Hf2);
    [simpl; auto|].
  destruct (addBindMount_frame sbid "/etc/resolv.conf"
              (getSandboxResolvPath host sbid) s2)
    as ((Ha3 & Hb3 & Hc3) & Hl3 & Hw3 & a3 & Hm3 & Hn3 & Hf3);
    [simpl; auto|].
  fold s1 in Ha1, Hb1, Hc1, Hl1, Hw1, Hm1.
  fold s2 in Ha2, Hb2, Hc2, Hl2, Hw2, Hm2.
  unfold sameIdentity. repeat split; try congruence.
  exists (a1 ++ a2 ++ a3). split.
  - rewrite Hm3, Hm2, Hm1. now rewrite <- !app_assoc.
  - split; [rewrite !length_app; lia|].
    apply Forall_app; split; [exact Hf1|].
    apply Forall_app; split; assumption.
Qed.

Lemma replaceDevice_spec (rd : LinuxDevice) (devs : list LinuxDevice) :
  forall h : list Event_,
    let r := fst (replaceDevice rd devs h) in
    map dev_Path (snd r) = map dev_Path devs
    /\ (fst r = true -> In (dev_Path rd) (map dev_Path devs))
    /\ (fst r = false ->
        snd r = devs /\ ~ In (dev_Path rd) (map dev_Path devs)).
Proof.
  induction devs as [|dev rest IH]; intros h; simpl.
  - repeat split; auto. discriminate.
  - destruct (String.eqb (dev_Path dev) (dev_Path rd)) eqn:Hp; simpl.
    + apply String.eqb_eq in Hp. repeat split; auto.
      * now rewrite Hp.
      * discriminate.
      * discriminate.
    + apply String.eqb_neq in Hp. unfold bind, ret.
      destruct ((if String.eqb (dev_Type dev) (dev_Type rd)
                    && (dev_Major dev =? dev_Major rd)%Z
                    && (dev_Minor dev =? dev_Minor rd)%Z
                 then emit _ else fun s => (tt, s)) h) as [u h1].
      specialize (IH h1).
      destruct (replaceDevice rd rest h1) as [[found devs'] h2].
      simpl in *. destruct IH as (Hmap & Ht & Hf).
      repeat split.
      * now rewrite Hmap.
      * intros H. right. now apply Ht.
      * destruct (Hf H) as [-> _]. reflexivity.
      * intros [Heq | Hin]; [congruence|]. now destruct (Hf H).
Qed.

(** With a Linux section in the spec, the loop over the host's devices
    never panics and changes the device list alone: the
    paths already listed stay where they are, the path of every host device
    that is not skipped is listed afterwards, and no path is listed twice
    unless one was before. *)
Lemma addHostDevices_spec (hostDevices : list HostDevice) :
  forall (spec : Spec_) (linux : Linux LinuxRest ResourcesRest)
         (h : list Event_),
    Linux_ spec = Some linux ->
    exists linux',
      fst (addHostDevices hostDevices spec h)
        = Returned (withLinux spec linux')
      /\ Resources linux' = Resources linux
      /\ linux_rest linux' = linux_rest linux
      /\ (exists added, devicePaths linux' = devicePaths linux ++ added)
      /\ (forall hd, In hd hostDevices -> validDevice hd ->
                     In (host_Path hd) (devicePaths linux'))
      /\ (NoDup (devicePaths linux) -> NoDup (devicePaths linux')).
Proof.
  induction hostDevices as [|hd rest IH]; intros spec linux h Hl; simpl.
  - exists linux. unfold ret. simpl. repeat split; auto.
    + destruct spec; simpl in *. now subst.
    + exists []. now rewrite app_nil_r.
    + intros hd [].
  - destruct ((host_Major hd =? 0)%Z && (host_Minor hd =? 0)%Z) eqn:Hv.
    + destruct (IH spec linux h Hl)
        as (linux' & Hr & Hres & Hrest & Hpre & Hin & Hnd).
      exists linux'. repeat split; auto.
      intros hd' [<- | Hin'] Hvalid; [|now apply Hin].
      unfold validDevice in Hvalid. congruence.
    + rewrite Hl. unfold bind.
      set (rd := {| dev_Path := host_Path hd;
                    dev_Type := String (host_Type hd) "";
                    dev_Major := host_Major hd;
                    dev_Minor := host_Minor hd;
                    dev_FileMode := None;
                    dev_UID := Some (host_Uid hd);
                    dev_GID := Some (host_Gid hd) |}).
      pose proof (replaceDevice_spec rd (Devices linux) h) as Hrep.
      destruct (replaceDevice rd (Devices linux) h)
        as [[found devs'] h1].
      simpl in Hrep. destruct Hrep as (Hmap & Ht & Hf). simpl.
      set (linux1 := {| Devices := if found then devs' else devs' ++ [rd];
                        Resources := Resources linux;
                        linux_rest := linux_rest linux |}).
      destruct (IH (withLinux spec linux1) linux1 h1 eq_refl)
        as (linux' & Hr & Hres & Hrest & (added & Hpre) & Hin & Hnd).
      assert (exists a1, devicePaths linux1 = devicePaths linux ++ a1
                         /\ In (host_Path hd) (devicePaths linux1)
                         /\ (NoDup (devicePaths linux) ->
                             NoDup (devicePaths linux1))) as (a1 & Hp1 & Hi1 & Hn1).
      { unfold devicePaths, linux1. simpl. destruct found.
        - exists []. rewrite app_nil_r, Hmap.
          repeat split; auto; try (now apply Ht).
        - destruct (Hf eq_refl) as [-> Hnot].
          exists [host_Path hd]. rewrite map_app. simpl.
          repeat split.
          + apply in_or_app. right. now left.
          + intros Hnd0. apply NoDup_app; [exact Hnd0 | | ].
            * constructor; [intros [] | constructor].
            * intros x Hx [<- | []]. now apply Hnot. }
      exists linux'. repeat split; auto.
      * exists (a1 ++ added). now rewrite Hpre, Hp1, <- app_assoc.
      * intros hd' [<- | Hin'] Hvalid; [|now apply Hin].
        rewrite Hpre. apply in_or_app. now left.
Qed.

Lemma setCgroupAccess_frame (spec spec' : Spec_) :
  setCgroupAccess spec = Returned spec' ->
  sameIdentity spec spec'
  /\ Mounts spec' = Mounts spec
  /\ Windows spec' = Windows spec.
Proof.
  unfold setCgroupAccess, sameIdentity.
  destruct (Linux_ spec) as [linux|]; [|discriminate].
  destruct (Resources linux) as [res|]; [|discriminate].
  intros H. injection H as <-. simpl. now repeat split.
Qed.

Lemma setCgroupAccess_panics (spec : Spec_) :
  lacksResources spec -> setCgroupAccess spec = Panicked.
Proof.
  unfold lacksResources, setCgroupAccess.
  destruct (Linux_ spec) as [linux|]; [|reflexivity].
  now intros ->.
Qed.

(** Without a Linux section the loop panics at the first device it does
    not skip, and otherwise leaves the spec as it is. *)
Lemma addHostDevices_without_linux (hostDevices : list HostDevice) :
  forall (spec : Spec_) (h : list Event_),
    Linux_ spec = None ->
    fst (addHostDevices hostDevices spec h) = Panicked
    \/ fst (addHostDevices hostDevices spec h) = Returned spec.
Proof.
  induction hostDevices as [|hd rest IH]; intros spec h Hl; simpl.
  - now right.
  - destruct ((host_Major hd =? 0)%Z && (host_Minor hd =? 0)%Z).
    + now apply IH.
    + rewrite Hl. now left.
Qed.

(** X14. A nil error from [setupWorkloadContainerSpec] always comes with
    the Windows section of the spec cleared. *)
Theorem setupWorkloadContainerSpec_nil_clears_windows
    (sbid id : string) (spec : Spec_) (h : list Event_) :
  fst (fst (setupWorkloadContainerSpec host sbid id spec h)) = Returned None ->
  Windows (snd (fst (setupWorkloadContainerSpec host sbid id spec h))) = None.
Proof.
  unfold setupWorkloadContainerSpec, bind, emit, ret, call.
  cbn beta iota zeta.
  destruct (negb (String.eqb (Hostname spec) ""));
    [rewrite leave_eq; discriminate|].
  destruct (updateSandboxMounts host sbid spec _) as [[e spec1] h1].
  cbn [fst snd].
  destruct e as [e|]; [rewrite leave_eq; discriminate|].
  match goal with
  | |- context [String.eqb (annotation ?s _) "true"] => set (spec3 := s)
  end.
  destruct (String.eqb (annotation spec3 _) "true").
  - destruct (answer_HostDevices host _) as [devs|e];
      [|rewrite leave_eq; discriminate].
    destruct (addHostDevices devs spec3 _) as [[spec'|] h2];
      [|rewrite leave_eq; discriminate].
    destruct (setCgroupAccess spec') as [spec''|];
      [|rewrite leave_eq; discriminate].
    pose proof (finishSpec_outcome spec'' h2) as Hfin.
    destruct (fst (fst (finishSpec host spec'' h2))) as [[e|]|];
      try discriminate. now intros _.
  - pose proof (finishSpec_outcome spec3 h1) as Hfin.
    destruct (fst (fst (finishSpec host spec3 h1))) as [[e|]|];
      try discriminate. now intros _.
Qed.

Lemma addHostDevices_frame (hostDevices : list HostDevice)
    (spec spec' : Spec_) (h : list Event_) :
  fst (addHostDevices hostDevices spec h) = Returned spec' ->
  sameIdentity spec spec'
  /\ Mounts spec' = Mounts spec
  /\ Windows spec' = Windows spec
  /\ (lacksResources spec -> lacksResources spec').
Proof.
  intros Hr. destruct (Linux_ spec) as [linux|] eqn:Hl.
  - destruct (addHostDevices_spec hostDevices spec linux h Hl)
      as (linux' & Hr' & Hres & _).
    rewrite Hr' in Hr. injection Hr as <-.
    unfold sameIdentity, lacksResources. simpl. rewrite Hl, Hres.
    now repeat split.
  - destruct (addHostDevices_without_linux hostDevices spec h Hl) as [H | H];
      rewrite H in Hr; [discriminate|].
    injection Hr as <-. unfold sameIdentity. now repeat split.
Qed.

Lemma updateSandboxMounts_frame (sbid : string) (spec : Spec_)
    (h : list Event_) :
  let spec1 := snd (fst (updateSandboxMounts host sbid spec h)) in
  sameIdentity spec spec1
  /\ Linux_ spec1 = Linux_ spec
  /\ Windows spec1 = Windows spec
  /\ (fst (fst (updateSandboxMounts host sbid spec h)) = None ->
      Forall2 (rewritten host sbid) (Mounts spec) (Mounts spec1)).
Proof.
  unfold updateSandboxMounts, bind, ret, sameIdentity.
  pose proof (updateMountsFrom_shape host sbid (Mounts spec) h) as Hshape.
  destruct (updateMountsFrom host sbid (Mounts spec) h) as [[e ms] s].
  simpl in *. repeat split. now intros ->.
Qed.

(** X15. When the sandbox mounts cannot be updated, the error comes back
    wrapped with the container and sandbox IDs, and the spec is the one
    [updateSandboxMounts] left behind: the mounts before the failing one
    rewritten, the rest as given, no bind mount added, the Windows section
    still there. *)
Theorem setupWorkloadContainerSpec_mounts_failure
    (sbid id : string) (spec : Spec_) (h : list Event_) (e : err) :
  Hostname spec = "" ->
  let h0 := (h ++ [EvStartSpan "hcsv2::setupWorkloadContainerSpec"])
              ++ [EvSpanAttributes [("sandboxID", sbid); ("cid", id)]] in
  fst (fst (updateSandboxMounts host sbid spec h0)) = Some e ->
  exists spec',
    fst (setupWorkloadContainerSpec host sbid id spec h)
    = (Returned
         (Some (withMessage e
            (fmt_Sprintf host
               "failed to update sandbox mounts for container %v in sandbox %v"
               [id; sbid]))),
       spec')
    /\ stoppedAt host sbid (Mounts spec) (Mounts spec')
    /\ Windows spec' = Windows spec
    /\ Linux_ spec' = Linux_ spec.
Proof.
  intros Hname h0 Herr.
  unfold setupWorkloadContainerSpec, bind, emit, ret, call.
  cbn beta iota zeta. rewrite Hname. fold h0.
  change (negb (String.eqb "" "")) with false. cbv iota.
  pose proof (updateSandboxMounts_frame sbid spec h0) as (_ & Hl & Hw & _).
  pose proof (updateMountsFrom_shape host sbid (Mounts spec) h0) as Hshape.
  unfold updateSandboxMounts, bind, ret in *.
  destruct (updateMountsFrom host sbid (Mounts spec) h0) as [[e' ms] s].
  simpl in *. subst e'. rewrite leave_eq. simpl.
  eexists. split; [reflexivity|]. now repeat split.
Qed.

(** X16. When [setupWorkloadContainerSpec] returns nil for a spec without
    the user annotation, the hostname, the annotations and the untouched
    rest of the spec are as given; the mounts given are still there, in
    their order, each rewritten or as it was, followed by at most three bind
    mounts for /etc/hostname, /etc/hosts and /etc/resolv.conf; and unless
    the privileged annotation is "true" the Linux section is as given. *)
Theorem setupWorkloadContainerSpec_keeps_mounts
    (sbid id : string) (spec : Spec_) (h : list Event_) :
  Annotations spec "io.microsoft.lcow.userstr" = None ->
  fst (fst (setupWorkloadContainerSpec host sbid id spec h)) = Returned None ->
  let spec' := snd (fst (setupWorkloadContainerSpec host sbid id spec h)) in
  sameIdentity spec spec'
  /\ (annotation spec "io.microsoft.virtualmachine.lcow.privileged"
        <> "true" -> Linux_ spec' = Linux_ spec)
  /\ exists kept added,
       Mounts spec' = kept ++ added
       /\ Forall2 (rewritten host sbid) (Mounts spec) kept
       /\ (length added <= 3)%nat
       /\ Forall (injected host sbid) added.
Proof.
  intros Huser.
  unfold setupWorkloadContainerSpec, bind, emit, ret, call.
  cbn beta iota zeta.
  destruct (negb (String.eqb (Hostname spec) ""));
    [rewrite leave_eq; discriminate|].
  match goal with
  | |- context [updateSandboxMounts host sbid spec ?hh] =>
      pose proof (updateSandboxMounts_frame sbid spec hh)
        as ((Ha1 & Hb1 & Hc1) & Hl1 & Hw1 & Hm1);
      destruct (updateSandboxMounts host sbid spec hh) as [[e spec1] h1]
  end.
  cbn [fst snd] in *.
  destruct e as [e|]; [rewrite leave_eq; discriminate|].
  specialize (Hm1 eq_refl).
  pose proof (bindMounts_frame sbid spec1)
    as ((Ha3 & Hb3 & Hc3) & Hl3 & Hw3 & added & Hm3 & Hn3 & Hf3).
  match goal with
  | |- context [String.eqb (annotation ?s _) "true"] => set (spec3 := s) in *
  end.
  assert (annotation spec3 "io.microsoft.virtualmachine.lcow.privileged"
          = annotation spec "io.microsoft.virtualmachine.lcow.privileged")
    as Hpriv by (unfold annotation; now rewrite Hb3, Hb1).
  rewrite Hpriv.
  destruct (String.eqb
              (annotation spec "io.microsoft.virtualmachine.lcow.privileged")
              "true") eqn:Hp.
  - destruct (answer_HostDevices host _) as [devs|e];
      [|rewrite leave_eq; discriminate].
    match goal with
    | |- context [addHostDevices devs spec3 ?hh] =>
        pose proof (addHostDevices_frame devs spec3) as Hdev;
        destruct (addHostDevices devs spec3 hh) as [[spec4|] h2] eqn:Hrun;
        [|rewrite leave_eq; discriminate]
    end.
    match type of Hrun with
    | addHostDevices devs spec3 ?hh = _ =>
        specialize (Hdev spec4 hh); rewrite Hrun in Hdev;
        specialize (Hdev eq_refl)
    end.
    destruct Hdev as ((Ha4 & Hb4 & Hc4) & Hm4 & Hw4 & _).
    pose proof (setCgroupAccess_frame spec4) as Hcg.
    destruct (setCgroupAccess spec4) as [spec5|];
      [|rewrite leave_eq; discriminate].
    destruct (Hcg spec5 eq_refl) as ((Ha5 & Hb5 & Hc5) & Hm5 & Hw5).
    rewrite finishSpec_without_userstr by congruence.
    intros _. cbn [fst snd]. unfold sameIdentity. simpl.
    split; [repeat split; congruence|].
    split; [apply String.eqb_eq in Hp; intros Hne; now elim Hne|].
    exists (Mounts spec1), added. repeat split; try assumption. congruence.
  - rewrite finishSpec_without_userstr by congruence.
    intros _. cbn [fst snd]. unfold sameIdentity. simpl.
    split; [repeat split; congruence|].
    split; [intros _; congruence|].
    exists (Mounts spec1), added. repeat split; assumption.
Qed.

(** X17. The privileged set-up takes the Linux section and its resources
    for granted: for a spec whose privileged annotation is "true" and that
    has no Linux section, or one without resources, the function panics
    once the mounts are updated and the host's devices are listed. *)
Theorem setupWorkloadContainerSpec_privileged_panics
    (sbid id : string) (spec : Spec_) (h : list Event_) :
  Hostname spec = "" ->
  annotation spec "io.microsoft.virtualmachine.lcow.privileged" = "true" ->
  lacksResources spec ->
  let h0 := (h ++ [EvStartSpan "hcsv2::setupWorkloadContainerSpec"])
              ++ [EvSpanAttributes [("sandboxID", sbid); ("cid", id)]] in
  fst (fst (updateSandboxMounts host sbid spec h0)) = None ->
  (forall h', exists devs, answer_HostDevices host h' = Ok devs) ->
  fst (fst (setupWorkloadContainerSpec host sbid id spec h)) = Panicked.
Proof.
  intros Hname Hpriv Hlack h0 Hnil Hdevs.
  unfold setupWorkloadContainerSpec, bind, emit, ret, call.
  cbn beta iota zeta. rewrite Hname. fold h0.
  change (negb (String.eqb "" "")) with false. cbv iota.
  pose proof (updateSandboxMounts_frame sbid spec h0)
    as ((Ha1 & Hb1 & Hc1) & Hl1 & Hw1 & _).
  destruct (updateSandboxMounts host sbid spec h0) as [[e spec1] h1].
  cbn [fst snd] in *. subst e.
  pose proof (bindMounts_frame sbid spec1)
    as ((Ha3 & Hb3 & Hc3) & Hl3 & Hw3 & _).
  match goal with
  | |- context [String.eqb (annotation ?s _) "true"] => set (spec3 := s) in *
  end.
  assert (annotation spec3 "io.microsoft.virtualmachine.lcow.privileged"
          = "true") as ->
    by (rewrite <- Hpriv; unfold annotation; now rewrite Hb3, Hb1).
  change (String.eqb "true" "true") with true. cbv beta iota.
  assert (lacksResources spec3) as Hlack3
    by (unfold lacksResources in *; now rewrite Hl3, Hl1).
  match goal with
  | |- context [answer_HostDevices host ?hh] =>
      destruct (Hdevs hh) as [devs ->]
  end.
  match goal with
  | |- context [addHostDevices devs spec3 ?hh] =>
      pose proof (addHostDevices_frame devs spec3) as Hdev;
      destruct (addHostDevices devs spec3 hh) as [[spec4|] h2] eqn:Hrun;
      [|now rewrite leave_eq]
  end.
  match type of Hrun with
  | addHostDevices devs spec3 ?hh = _ =>
      specialize (Hdev spec4 hh); rewrite Hrun in Hdev;
      specialize (Hdev eq_refl)
  end.
  destruct Hdev as (_ & _ & _ & Hlack4).
  rewrite (setCgroupAccess_panics spec4 (Hlack4 Hlack3)).
  now rewrite leave_eq.
Qed.

(** X18. The loop over the host's devices, run on a spec that has a Linux
    section, never panics and changes the device list alone: the paths
    already listed stay where they are, the path of every host device that
    is not skipped (major and minor both 0) is listed afterwards, and no
    path comes to be listed twice. *)
Theorem addHostDevices_device_list
    (hostDevices : list HostDevice) (spec : Spec_)
    (linux : Linux LinuxRest ResourcesRest) (h : list Event_) :
  Linux_ spec = Some linux ->
  exists linux',
    fst (addHostDevices hostDevices spec h) = Returned (withLinux spec linux')
    /\ Resources linux' = Resources linux
    /\ linux_rest linux' = linux_rest linux
    /\ (exists added, devicePaths linux' = devicePaths linux ++ added)
    /\ (forall hd, In hd hostDevices -> validDevice hd ->
                   In (host_Path hd) (devicePaths linux'))
    /\ (NoDup (devicePaths linux) -> NoDup (devicePaths linux')).
Proof. apply addHostDevices_spec. Qed.

End Hcsv2Setup.

(** ** The extras on the sample guest *)

Lemma updateSandboxMounts_nil_witness :
  let spec := Samples.specWith ""
                [Samples.bindMount "/data" "sandbox://a/../b";
                 Samples.bindMount "/tmp" "/var/tmp"] in
  let spec' :=
    snd (fst (Hcsv2.updateSandboxMounts Samples.hcsHost "sb1" spec [])) in
  spec' = Hcsv2.withMounts spec (Hcsv2.Mounts spec')
  /\ Forall2 (Hcsv2.rewritten Samples.hcsHost "sb1")
             (Hcsv2.Mounts spec) (Hcsv2.Mounts spec').
Proof.
  apply (updateSandboxMounts_nil Samples.hcsHost "sb1"
           (Samples.specWith ""
              [Samples.bindMount "/data" "sandbox://a/../b";
               Samples.bindMount "/tmp" "/var/tmp"]) []).
  reflexivity.
Defined.

Lemma updateSandboxMounts_error_witness :
  let spec := Samples.specWith ""
                [Samples.bindMount "/data" "sandbox://ok";
                 Samples.bindMount "/etc" "sandbox://../../../etc";
                 Samples.bindMount "/late" "sandbox://late"] in
  Hcsv2.stoppedAt Samples.hcsHost "sb1" (Hcsv2.Mounts spec)
    (Hcsv2.Mounts
       (snd (fst (Hcsv2.updateSandboxMounts Samples.hcsHost "sb1" spec [])))).
Proof.
  apply (updateSandboxMounts_error Samples.hcsHost "sb1"
           (Samples.specWith ""
              [Samples.bindMount "/data" "sandbox://ok";
               Samples.bindMount "/etc" "sandbox://../../../etc";
               Samples.bindMount "/late" "sandbox://late"]) []
           (errorString
              (Samples.sprintf
                 "mount path %v for mount %v is not within sandbox's mounts dir"
                 ["/run/gcs/etc"; "sandbox://../../../etc"]))).
  reflexivity.
Defined.

Lemma updateSandboxMounts_without_prefix_witness :
  let spec := Samples.specWith ""
                [Samples.bindMount "/tmp" "/var/tmp";
                 Samples.bindMount "/cfg" "sandbox:/not-the-prefix"] in
  Hcsv2.updateSandboxMounts Samples.hcsHost "sb1" spec [] = ((None, spec), []).
Proof.
  apply (updateSandboxMounts_without_prefix Samples.hcsHost "sb1"
           (Samples.specWith ""
              [Samples.bindMount "/tmp" "/var/tmp";
               Samples.bindMount "/cfg" "sandbox:/not-the-prefix"]) []).
  repeat constructor.
Defined.

Lemma updateSandboxMounts_second_run_witness :
  let spec := Samples.specWith ""
                [Samples.bindMount "/data" "sandbox://data";
                 Samples.bindMount "/tmp" "/var/tmp"] in
  let spec' :=
    snd (fst (Hcsv2.updateSandboxMounts Samples.hcsHost "sb1" spec [])) in
  Hcsv2.updateSandboxMounts Samples.hcsHost "sb1" spec' [] = ((None, spec'), []).
Proof.
  apply (updateSandboxMounts_second_run Samples.hcsHost "sb1"
           (Samples.specWith ""
              [Samples.bindMount "/data" "sandbox://data";
               Samples.bindMount "/tmp" "/var/tmp"]) [] []);
    reflexivity.
Defined.

Lemma setupWorkloadContainerSpec_nil_clears_windows_witness :
  Hcsv2.Windows
    (snd (fst (Hcsv2.setupWorkloadContainerSpec Samples.hcsHost "sb1" "c1"
                 (Samples.specWith ""
                    [Samples.bindMount "/data" "sandbox://data"]) [])))
  = None.
Proof.
  apply (setupWorkloadContainerSpec_nil_clears_windows Samples.hcsHost
           "sb1" "c1"
           (Samples.specWith ""
              [Samples.bindMount "/data" "sandbox://data"]) []).
  reflexivity.
Defined.

Lemma setupWorkloadContainerSpec_mounts_failure_witness :
  let spec := Samples.specWith ""
                [Samples.bindMount "/data" "sandbox://ok";
                 Samples.bindMount "/etc" "sandbox://../../../etc"] in
  let refusal :=
    errorString
      (Samples.sprintf
         "mount path %v for mount %v is not within sandbox's mounts dir"
         ["/run/gcs/etc"; "sandbox://../../../etc"]) in
  exists spec',
    fst (Hcsv2.setupWorkloadContainerSpec Samples.hcsHost "sb1" "c1" spec [])
    = (Returned
         (Some (withMessage refusal
            (Samples.sprintf
               "failed to update sandbox mounts for container %v in sandbox %v"
               ["c1"; "sb1"]))),
       spec')
    /\ Hcsv2.stoppedAt Samples.hcsHost "sb1" (Hcsv2.Mounts spec)
         (Hcsv2.Mounts spec')
    /\ Hcsv2.Windows spec' = Hcsv2.Windows spec
    /\ Hcsv2.Linux_ spec' = Hcsv2.Linux_ spec.
Proof.
  apply (setupWorkloadContainerSpec_mounts_failure Samples.hcsHost
           "sb1" "c1"
           (Samples.specWith ""
              [Samples.bindMount "/data" "sandbox://ok";
               Samples.bindMount "/etc" "sandbox://../../../etc"]) []);
    reflexivity.
Defined.

Lemma setupWorkloadContainerSpec_keeps_mounts_witness :
  let spec := Samples.specWith ""
                [Samples.bindMount "/data" "sandbox://data"] in
  let spec' :=
    snd (fst (Hcsv2.setupWorkloadContainerSpec Samples.hcsHost "sb1" "c1"
                spec [])) in
  Hcsv2.sameIdentity spec spec'
  /\ (Hcsv2.annotation spec "io.microsoft.virtualmachine.lcow.privileged"
        <> "true" -> Hcsv2.Linux_ spec' = Hcsv2.Linux_ spec)
  /\ exists kept added,
       Hcsv2.Mounts spec' = kept ++ added
       /\ Forall2 (Hcsv2.rewritten Samples.hcsHost "sb1")
                  (Hcsv2.Mounts spec) kept
       /\ (length added <= 3)%nat
       /\ Forall (Hcsv2.injected Samples.hcsHost "sb1") added.
Proof.
  apply (setupWorkloadContainerSpec_keeps_mounts Samples.hcsHost "sb1" "c1"
           (Samples.specWith ""
              [Samples.bindMount "/data" "sandbox://data"]) []);
    reflexivity.
Defined.

Lemma setupWorkloadContainerSpec_privileged_panics_witness :
  fst (fst (Hcsv2.setupWorkloadContainerSpec Samples.hcsHost "sb1" "c1"
              Samples.privilegedSpec []))
  = Panicked.
Proof.
  apply (setupWorkloadContainerSpec_privileged_panics Samples.hcsHost
           "sb1" "c1" Samples.privilegedSpec []).
  - reflexivity.
  - reflexivity.
  - exact I.
  - reflexivity.
  - intros h'. exists []. reflexivity.
Defined.

Lemma addHostDevices_device_list_witness :
  exists linux',
    fst (Hcsv2.addHostDevices Samples.sampleHostDevices Samples.deviceSpec [])
    = Returned (Hcsv2.withLinux Samples.deviceSpec linux')
    /\ Hcsv2.devicePaths linux' = ["/dev/null"; "/dev/zero"].
Proof.
  destruct (addHostDevices_device_list Samples.sampleHostDevices
              Samples.deviceSpec Samples.sampleLinux [] eq_refl)
    as (linux' & Hrun & _).
  exists linux'. split; [exact Hrun|].
  cbv in Hrun. injection Hrun as <-. reflexivity.
Defined.
